(** * Orb_Assistant — the cognitive synthesis pipeline of
      [src/electron/src/orb_controller.py]

    A shallow embedding of the controller ([SF_ORB_Controller]) and of the
    three helper classes it owns ([HabitTracker], [IntuitiveRecognizer],
    [ProprioceptionSystem]), followed by the properties the specification
    states about them.

    Conventions of the embedding.
    - Python floats are idealised as exact rationals ([Q]); comparisons are
      the boolean tests [Qltb], [Qleb] below, so every definition evaluates.
    - A Python dict whose keys are fixed by the code is a record; a key that
      is only sometimes present is an [option] field ([None] = key absent,
      which is what [dict.get] without default returns).
    - Objects that are mutated are threaded explicitly: every method takes
      the parts of the state it touches and returns their new values.
    - The collaborators that are imported but whose code is not part of the
      controller file (the vault manager, the Bayesian engine, the HLSF
      engine, the four-mind tribunal, the gravity field, and the few
      functions of Python's standard library that are not rational
      arithmetic) are interfaces: type classes whose methods are
      parameters of the development.
    - [print] calls are not modelled. *)

From stdpp Require Import gmap strings.
From Stdlib Require Import QArith Qminmax Qabs Qround Lqa ZArith Lia.
From Stdlib Require Import String Ascii List Bool.
Import ListNotations.

Local Open Scope string_scope.
Local Open Scope Q_scope.

(** ** Python values *)

Module Py.

(** [x < y] and [x <= y] on floats. *)
Definition Qltb (x y : Q) : bool := negb (Qle_bool y x).
Definition Qleb (x y : Q) : bool := Qle_bool x y.

(** [min(x, y)]: Python returns [y] only when [y < x]. *)
Definition min (x y : Q) : Q := if Qltb y x then y else x.

(** [sum(xs)] starting from [0]. *)
Definition sum (xs : list Q) : Q := fold_left Qplus xs 0.

(** [sep.join(parts)]. *)
Fixpoint join (sep : string) (parts : list string) : string :=
  match parts with
  | [] => ""
  | [p] => p
  | p :: ps => p ++ sep ++ join sep ps
  end.

(** [s.split(sep)] for a one-character separator: never the empty list. *)
Fixpoint split (sep : ascii) (s : string) : list string :=
  match s with
  | EmptyString => [EmptyString]
  | String c rest =>
      if Ascii.eqb c sep then EmptyString :: split sep rest
      else match split sep rest with
           | [] => [String c EmptyString]
           | w :: ws => String c w :: ws
           end
  end.

(** [needle in hay] on strings. *)
Fixpoint contains (needle hay : string) : bool :=
  String.prefix needle hay
  || match hay with
     | EmptyString => false
     | String _ rest => contains needle rest
     end.

(** [collections.deque(maxlen=n).append(x)]: a full deque drops its
    oldest (leftmost) element. *)
Definition deque_append {A} (maxlen : nat) (d : list A) (x : A) : list A :=
  if (maxlen <=? List.length d)%nat then tl d ++ [x] else d ++ [x].

(** [xs[-n:]]. *)
Definition last_n {A} (n : nat) (xs : list A) : list A :=
  skipn (List.length xs - n) xs.

(** The value of a key that the caller tests with [is True]. *)
Inductive value :=
| VNone
| VBool (b : bool)
| VInt (z : Z)
| VStr (s : string).

Definition is_True (v : option value) : bool :=
  match v with
  | Some (VBool true) => true
  | _ => false
  end.

(** A call either returns or raises. *)
Inductive outcome (A : Type) :=
| Returned (a : A)
| Raised (exn : string).
Arguments Returned {A} a.
Arguments Raised {A} exn.

End Py.

Import Py.

(** ** Data model *)

(** The stimulus dict.  [coordinates] and [orb_coordinates] are indexed at
    [0] and [1] by the code, so they are pairs here; [extra] carries the
    free-form keys (["intent"], ["content"], ...), which only the glyph
    trace reads. *)
Record Stimulus := {
  stim_type : option string;
  stim_coordinates : option (Q * Q);
  stim_velocity : option Q;
  stim_orb_coordinates : option (Q * Q);
  stim_meta : option (option value);   (* meta dict, then its test_mode *)
  stim_extra : list (string * string)
}.

(** [stimulus.get("meta", {}).get("test_mode")]. *)
Definition stim_test_mode (s : Stimulus) : option value :=
  match stim_meta s with
  | Some tm => tm
  | None => None
  end.

(** A node of the HLSF field. *)
Record Node := {
  node_n : Z;
  node_k : Z;
  node_coordinates : list Q;
  node_adjacency_value : Q
}.

(** One entry of [HabitTracker.sequence_buffer]. *)
Record Observation := {
  obs_quadrant : string;
  obs_coords : Q * Q;
  obs_velocity : Q;
  obs_timestamp : Q
}.

(** The prediction record the tracker crystallizes, and what the
    posteriori cache hands back: a dict read only through [get]. *)
Record HabitRecord := {
  hr_pattern : option string;
  hr_frequency : option Q;
  hr_predicted_next : option string;
  hr_temporal_decay : option Q
}.

(** Truth value of such a dict: non-empty. *)
Definition HabitRecord_truthy (r : HabitRecord) : bool :=
  match hr_pattern r, hr_frequency r, hr_predicted_next r, hr_temporal_decay r with
  | None, None, None, None => false
  | _, _, _, _ => true
  end.

(** What [predict_next] returns when it returns a dict. *)
Record Prediction := {
  prediction_type : string;
  pred_target : option string;
  pred_confidence : Q;
  pred_hume_vivacity : Q
}.

(** The dict returned by [IntuitiveRecognizer.check_necessity]. *)
Record Necessity := {
  jump_triggered : bool;
  nec_necessity_vector : option (Q * Q);
  nec_substance_unity_score : Q;
  nec_bypass_steps : option Z;
  nec_spinozan_certainty : Q;
  nec_field_density : Z
}.

(** One perspective's shadow: only [confidence] and [reliability] are read. *)
Record Shadow := {
  sh_confidence : option Q;
  sh_reliability : option Q
}.

(** [shadows]: a dict from mind name to shadow, in insertion order. *)
Definition Shadows := list (string * Shadow).

Fixpoint shadows_get (name : string) (sh : Shadows) : option Shadow :=
  match sh with
  | [] => None
  | (k, v) :: rest => if String.eqb k name then Some v else shadows_get name rest
  end.

(** The [state] dict built by [_synthesize_logic_triad]. *)
Record LogicState := {
  field_density : Z;
  active_mode : string;
  intuitive_jump_triggered : option bool;
  necessity_vector : option (option (Q * Q));
  spinozan_certainty : option Q;
  substance_unity_score : option Q;
  inductive_prediction : option Prediction;
  hume_vivacity : option Q;
  custom_habit_active : option bool;
  bayes_habit_prob : option Q;
  bayes_jump_prob : option Q;
  bayes_guard_prob : option Q;
  epistemic_bayes : option (list (string * Q));
  density_penalty : option Q
}.

Definition set_active_mode (m : string) (s : LogicState) : LogicState :=
  {| field_density := field_density s;
     active_mode := m;
     intuitive_jump_triggered := intuitive_jump_triggered s;
     necessity_vector := necessity_vector s;
     spinozan_certainty := spinozan_certainty s;
     substance_unity_score := substance_unity_score s;
     inductive_prediction := inductive_prediction s;
     hume_vivacity := hume_vivacity s;
     custom_habit_active := custom_habit_active s;
     bayes_habit_prob := bayes_habit_prob s;
     bayes_jump_prob := bayes_jump_prob s;
     bayes_guard_prob := bayes_guard_prob s;
     epistemic_bayes := epistemic_bayes s;
     density_penalty := density_penalty s |}.

Definition set_density_penalty (p : Q) (s : LogicState) : LogicState :=
  {| field_density := field_density s;
     active_mode := active_mode s;
     intuitive_jump_triggered := intuitive_jump_triggered s;
     necessity_vector := necessity_vector s;
     spinozan_certainty := spinozan_certainty s;
     substance_unity_score := substance_unity_score s;
     inductive_prediction := inductive_prediction s;
     hume_vivacity := hume_vivacity s;
     custom_habit_active := custom_habit_active s;
     bayes_habit_prob := bayes_habit_prob s;
     bayes_jump_prob := bayes_jump_prob s;
     bayes_guard_prob := bayes_guard_prob s;
     epistemic_bayes := epistemic_bayes s;
     density_penalty := Some p |}.

(** The correlation envelope ([_build_correlation_envelope]). *)
Record Core4Entry := {
  c4_shadow : Shadow;
  c4_confidence : Q;
  advisory_verdict : string
}.

Record ECM := {
  convergence_weights : list (string * Q);
  ecm_inputs : list (string * Shadow);
  ecm_note : string
}.

Record Core4 := {
  caleon : Core4Entry;
  kaygee : Core4Entry;
  cali_x_one : Core4Entry;
  ecm : ECM
}.

Record Tension := {
  entropy : Q;
  spread : Q;
  reweight_recommended : bool
}.

Record AdvisoryPlusOne := {
  advisory_only : bool;
  confidence_gradients : list (string * Q);
  tension_indicators : Tension;
  suggestion : string
}.

Record CaliEvent := {
  ev_type : string;
  ev_detail : string
}.

Record CaliFlags := {
  drift_detected : bool;
  anomaly_detected : bool;
  ethical_tension : bool
}.

Record CaliReflection := {
  observational_only : bool;
  events : list CaliEvent;
  flags : CaliFlags
}.

Record Envelope := {
  stardate : Q;
  glyph_trace : string;
  core_4 : Core4;
  advisory_plus_one : AdvisoryPlusOne;
  cali_reflection : CaliReflection;
  final_verdict : string;
  final_verdict_source : string;
  env_confidence : Q
}.

(** The per-perspective entries of an envelope, by name.  The fourth
    entry of [core_4], ["ecm"], carries weights only and no verdict. *)
Definition perspective_entries (e : Envelope) : list (string * Core4Entry) :=
  [("caleon", caleon (core_4 e));
   ("kaygee", kaygee (core_4 e));
   ("cali_x_one", cali_x_one (core_4 e))].

(** Statistics returned by the gravity field: a dict of floats. *)
Definition GravityStats := list (string * Q).

Fixpoint stats_get (name : string) (st : GravityStats) : option Q :=
  match st with
  | [] => None
  | (k, v) :: rest => if String.eqb k name then Some v else stats_get name rest
  end.

(** [spatial_coord] in [cognitively_emerge]. *)
Record SpatialCoord := {
  node_id : string;
  recursion_depth : Z;
  sc_coordinates : list Q;
  sc_adjacency_value : Q
}.

(** [CrossDomainPredicate]: the constructor sets the first five
    attributes; the others are attached afterwards, so they are absent
    ([None]) on a freshly constructed object. *)
Record CrossDomainPredicate := {
  epistemic_traces : Shadows;
  hlsf_node : SpatialCoord;
  logic_validity : LogicState;
  confidence : Q;
  timestamp : Q;
  gravity_stats : option GravityStats;
  navigation_vector : option (Q * Q);
  ucm_envelope : option Envelope;
  th_cali_reflection : option CaliReflection;
  th_final_verdict : option string;
  th_final_verdict_source : option string
}.

(** The dict returned by [CrossDomainPredicate.pulse]; its last three
    keys are dropped when their value is [None]. *)
Record Pulse := {
  glow_intensity : Q;
  cognitive_mode : string;
  spatial_coordinate : SpatialCoord;
  epistemic_alignment : Q;
  deterministic : bool;
  predictive_intent : option Prediction;
  jump_vector : option (list Q);
  pulse_navigation_vector : option (Q * Q);
  pulse_final_verdict : option string;
  pulse_final_verdict_source : option string
}.

(** The record crystallized under the stimulus after a full cycle. *)
Record Crystal := {
  cr_predicate : Pulse;
  cr_confidence : Q;
  triad_c_mode : string;
  cr_field_density : Z;
  cr_ucm_envelope : Envelope;
  cr_cali_reflection : CaliReflection
}.

(** Keys and values handed to [VaultManager.crystallize]. *)
Inductive VaultKey :=
| KeyString (k : string)
| KeyStimulus (s : Stimulus).

Inductive VaultValue :=
| HabitValue (r : HabitRecord)
| CrystalValue (c : Crystal).

(** ** Collaborators *)

(** [vault_system.manager.VaultManager].  [posteriori_cache_get v k] is
    [v.posteriori_cache.get(k)].  [lightning_query] answers [None] or a
    previously crystallized record; such a record is a non-empty dict, so
    the truth test the controller applies to the answer is the test for
    [Some]. *)
Class VaultManager := {
  Vault : Type;
  Cached : Type;
  posteriori_cache_get : Vault -> string -> option HabitRecord;
  crystallize : Vault -> VaultKey -> VaultValue -> Vault;
  lightning_query : Vault -> Stimulus -> option Cached
}.

(** [bayesian_engine.BayesianEngine].  [has_prior b h] is
    [h in b.priors]. *)
Class BayesianEngine := {
  Bayes : Type;
  has_prior : Bayes -> string -> bool;
  set_prior : Bayes -> string -> Q -> Q -> Bayes;
  add_evidence : Bayes -> string -> string -> Q -> string -> Q -> Bayes;
  calculate_posterior : Bayes -> string -> option Q;
  update_with_outcome : Bayes -> string -> bool -> Q -> Bayes
}.

(** [hlsf_geometry.engine.hlsf_singleton].  [field_map e] lists
    [e.field_map.values()]; [last_density_breach e] is [None] when the
    attribute does not exist. *)
Class HLSFEngine := {
  Engine : Type;
  field_map : Engine -> list Node;
  last_density_breach : Engine -> option Z;
  purge_trigger_threshold : Engine -> Q;
  max_field_density : Engine -> Q;
  dimension : Engine -> nat;
  map_adjacency : Engine -> Stimulus -> Engine * Node;
  get_recursive_neighbors : Engine -> Node -> Z -> Engine * list Node;
  calculate_thought_vector : Engine -> list Node -> list Q;
  _edge_cutter_purge : Engine -> Engine
}.

(** [components.core_4_minds.tribunal.FourMindTribunal]. *)
Class FourMindTribunal := {
  Tribunal : Type;
  generate_epistemic_shadow : Tribunal -> Stimulus -> Tribunal * Shadows
}.

(** [space_field.SpaceFieldCognition]: the tensor field behind
    [EpistemicGravityBridge].  [broadcast_to_field f x y z i] injects a
    signal of intensity [i] at voxel [(x, y, z)]. *)
Class SpaceFieldCognition := {
  SpaceField : Type;
  DIM : SpaceField -> Z;
  field_step : SpaceField -> SpaceField;
  broadcast_to_field : SpaceField -> Z -> Z -> Z -> Q -> SpaceField;
  get_field_stats : SpaceField -> GravityStats
}.

(** The functions of Python's standard library the controller calls that
    are not rational arithmetic. *)
Class PyLib := {
  math_exp : Q -> Q;
  math_log : Q -> Q;
  math_sqrt : Q -> Q;
  sha256_hexdigest : string -> string;
  json_dumps_sorted : Stimulus -> string;
  str_float : Q -> string;
  str_int : Z -> string
}.

(** What one call of [cognitively_emerge] reads from its environment:
    the successive values of [time.time()] and the two draws of
    [random.random()]. *)
Record Ambient := {
  t_observation : Q;
  t_physics : Q;
  t_bayes : Q;
  t_thought : Q;
  t_stardate : Q;
  rnd_x : Q;
  rnd_y : Q
}.

(** [int(x)]: truncation toward zero. *)
Definition py_int (x : Q) : Z :=
  if Qltb x 0 then Qceiling x else Qfloor x.

(** [x / y] on floats: raises when the divisor is zero. *)
Definition truediv (x y : Q) : outcome Q :=
  if Qeq_bool y 0 then Raised "ZeroDivisionError" else Returned (x / y).

Definition bind {A B} (m : outcome A) (k : A -> outcome B) : outcome B :=
  match m with
  | Returned a => k a
  | Raised exn => Raised exn
  end.

Notation "'do' x <- m ; k" := (bind m (fun x => k))
  (at level 10, x name, m at level 100, k at level 200).

(** [[f(x) for x in xs]] for an [f] that may raise. *)
Fixpoint traverse {A B} (f : A -> outcome B) (xs : list A) : outcome (list B) :=
  match xs with
  | [] => Returned []
  | x :: rest => do y <- f x; do ys <- traverse f rest; Returned (y :: ys)
  end.

(** ** The code *)

Section Controller.

Context {VM : VaultManager} {BE : BayesianEngine} {HE : HLSFEngine}.
Context {FT : FourMindTribunal} {SF : SpaceFieldCognition} {PL : PyLib}.

(** *** [EpistemicGravityBridge] (lines 33-67) *)

(** [None] when torch is not available ([self.active] is false, and the
    object has no field); otherwise the field and [self.dim]. *)
Record GravityWiring := {
  gw_field : SpaceField;
  gw_dim : Z
}.

Definition EpistemicGravityBridge := option GravityWiring.

Definition clamp_index (dim x : Z) : Z := Z.max 0 (Z.min x (dim - 1)).

Definition process_stimulus (g : EpistemicGravityBridge) (stimulus : Stimulus)
  : EpistemicGravityBridge * GravityStats :=
  match g with
  | None => (None, [])
  | Some w =>
      let dim := gw_dim w in
      let f1 := field_step (gw_field w) in
      let f2 :=
        if bool_decide (stim_type stimulus = Some "cursor_movement") then
          let coords := default (0, 0) (stim_coordinates stimulus) in
          let x := py_int ((fst coords / 1920) * inject_Z (dim - 1)) in
          let y := py_int ((snd coords / 1080) * inject_Z (dim - 1)) in
          let x := clamp_index dim x in
          let y := clamp_index dim y in
          let z := (dim / 2)%Z in
          let intensity := Py.min (default 1 (stim_velocity stimulus) / 10) 1 in
          broadcast_to_field f1 x y z intensity
        else f1 in
      (Some {| gw_field := f2; gw_dim := dim |}, get_field_stats f2)
  end.

(** *** [HabitTracker] (lines 118-196)

    [self.vault] is the controller's vault, shared with it: the methods
    that use it take the vault and return it. *)

Record HabitTracker := {
  sequence_buffer : list Observation;
  pattern_cache : gmap string Z
}.

Definition HabitTracker_init : HabitTracker :=
  {| sequence_buffer := []; pattern_cache := ∅ |}.

Definition _coords_to_quadrant (coords : Q * Q) : string :=
  let '(x, y) := coords in
  let grid_x := 1920 / 2 in
  let grid_y := 1080 / 2 in
  let col := if Qltb x grid_x then 0%nat else 1%nat in
  let row := if Qltb y grid_y then 0%nat else 1%nat in
  nth (row * 2 + col) ["NW"; "NE"; "SW"; "SE"] "".

Definition _serialize_pattern (sequence : list Observation) : string :=
  join "_" (map obs_quadrant sequence).

Definition _extrapolate_next_quadrant (pattern_key : string) : string :=
  let parts := split "_" pattern_key in
  if (2 <=? List.length parts)%nat then last parts "" else "UNKNOWN".

Definition _update_conjunction_frequency
  (ht : HabitTracker) (vault : Vault) (pattern_key : string) : HabitTracker * Vault :=
  let cache0 := pattern_cache ht in
  let cache1 :=
    match cache0 !! pattern_key with
    | None => <[pattern_key := 0%Z]> cache0
    | Some _ => cache0
    end in
  let count := (default 0%Z (cache1 !! pattern_key) + 1)%Z in
  let cache2 := <[pattern_key := count]> cache1 in
  ({| sequence_buffer := sequence_buffer ht; pattern_cache := cache2 |},
   crystallize vault (KeyString ("habit_" ++ pattern_key))
     (HabitValue
        {| hr_pattern := Some pattern_key;
           hr_frequency := Some (Py.min (inject_Z count / 10) 1);
           hr_predicted_next := Some (_extrapolate_next_quadrant pattern_key);
           hr_temporal_decay := Some 0.95 |})).

Definition record_observation
  (ht : HabitTracker) (vault : Vault) (stimulus : Stimulus) (now : Q)
  : HabitTracker * Vault * option Observation :=
  if negb (bool_decide (stim_type stimulus = Some "cursor_movement")) then
    (ht, vault, None)
  else
    let coords := default (0, 0) (stim_coordinates stimulus) in
    let quadrant := _coords_to_quadrant coords in
    let observation :=
      {| obs_quadrant := quadrant;
         obs_coords := coords;
         obs_velocity := default 0 (stim_velocity stimulus);
         obs_timestamp := now |} in
    let buffer := deque_append 5 (sequence_buffer ht) observation in
    let ht1 := {| sequence_buffer := buffer; pattern_cache := pattern_cache ht |} in
    if (3 <=? List.length buffer)%nat then
      let pattern_key := _serialize_pattern buffer in
      let '(ht2, vault2) := _update_conjunction_frequency ht1 vault pattern_key in
      (ht2, vault2, Some observation)
    else (ht1, vault, Some observation).

Definition unsure_prediction : Prediction :=
  {| prediction_type := "UNSURE";
     pred_target := None;
     pred_confidence := 0.3;
     pred_hume_vivacity := 0.4 |}.

Definition predict_next (ht : HabitTracker) (vault : Vault) : option Prediction :=
  if (List.length (sequence_buffer ht) <? 3)%nat then None
  else
    let current_pattern := _serialize_pattern (last_n 3 (sequence_buffer ht)) in
    match posteriori_cache_get vault ("habit_" ++ current_pattern) with
    | Some cached =>
        if HabitRecord_truthy cached then
          Some {| prediction_type := "QUADRANT_TRANSITION";
                  pred_target := hr_predicted_next cached;
                  pred_confidence := default 0 (hr_frequency cached);
                  pred_hume_vivacity :=
                    Py.min (default 0 (hr_frequency cached) * 1.2) 1 |}
        else Some unsure_prediction
    | None => Some unsure_prediction
    end.

Definition get_quadrant_heat (ht : HabitTracker) (quadrant_code : string) : Q :=
  let heat :=
    map_fold
      (fun pattern count heat =>
         if contains quadrant_code pattern then (heat + count)%Z else heat)
      0%Z (pattern_cache ht) in
  Py.min (inject_Z heat / 100) 1.

(** *** [IntuitiveRecognizer] (lines 199-254)

    [self.hlsf] is the controller's engine; the methods only read it. *)

Record IntuitiveRecognizer := {
  symmetry_threshold : Q;
  density_threshold : Z
}.

Definition IntuitiveRecognizer_init : IntuitiveRecognizer :=
  {| symmetry_threshold := 0.9; density_threshold := 50 |}.

(** The test of lines 238-239 on one pair of coordinate lists. *)
Definition is_mirror_pair (c1 c2 : list Q) : bool :=
  match c1, c2 with
  | x1 :: y1 :: _, x2 :: y2 :: _ =>
      Qltb (Qabs (x1 + x2)) 0.2 && Qltb (Qabs (y1 - y2)) 0.2
  | _, _ => false
  end.

(** The inner loop of lines 237-240, for a fixed [c1]. *)
Definition count_mirrors_of (c1 : list Q) (others : list (list Q)) (mirror_count : nat) : nat :=
  fold_left (fun n c2 => if is_mirror_pair c1 c2 then S n else n) others mirror_count.

(** The outer loop of lines 236-240: [c1] against [coords_list[i + 1:]]. *)
Fixpoint count_mirror_pairs (coords_list : list (list Q)) (mirror_count : nat) : nat :=
  match coords_list with
  | [] => mirror_count
  | c1 :: rest => count_mirror_pairs rest (count_mirrors_of c1 rest mirror_count)
  end.

(** [len(nodes) * (len(nodes) - 1) / 2]. *)
Definition total_pairs_of (n : nat) : Q :=
  inject_Z (Z.of_nat n * (Z.of_nat n - 1)) / 2.

Definition _calculate_bilateral_symmetry (e : Engine) : outcome Q :=
  match field_map e with
  | [] => Returned 0
  | _ =>
      let nodes := field_map e in
      if (List.length nodes <? 2)%nat then Returned 0
      else
        let coords_list := map node_coordinates nodes in
        let mirror_count := count_mirror_pairs coords_list 0 in
        let total_pairs := total_pairs_of (List.length nodes) in
        if Qltb 0 total_pairs
        then truediv (inject_Z (Z.of_nat mirror_count)) total_pairs
        else Returned 0
  end.

(** Lines 249-251 for one node: [centroid[i] += node.coordinates[i]] for
    every index [i] of [centroid] that the node has. *)
Fixpoint add_coordinates (centroid coordinates : list Q) : list Q :=
  match centroid, coordinates with
  | c :: cs, x :: xs => (c + x) :: add_coordinates cs xs
  | _, _ => centroid
  end.

Definition _calculate_substance_vector (e : Engine) (current_node : Node)
  : outcome (Q * Q) :=
  match field_map e with
  | [] => Returned (0, 0)
  | _ =>
      let centroid0 := repeat 0 (Nat.min (dimension e) 18) in
      let centroid1 :=
        fold_left (fun centroid node => add_coordinates centroid (node_coordinates node))
                  (field_map e) centroid0 in
      let count := inject_Z (Z.of_nat (List.length (field_map e))) in
      do centroid2 <- traverse (fun c => truediv c count) centroid1;
      match centroid2 with
      | c0 :: c1 :: _ => Returned (c0, c1)
      | _ => Raised "IndexError"
      end
  end.

Definition check_necessity
  (ir : IntuitiveRecognizer) (e : Engine) (stimulus : Stimulus) (current_node : Node)
  : outcome Necessity :=
  let density := Z.of_nat (List.length (field_map e)) in
  let no_jump :=
    do symmetry_score <- _calculate_bilateral_symmetry e;
    Returned {| jump_triggered := false;
                nec_necessity_vector := None;
                nec_substance_unity_score := symmetry_score;
                nec_bypass_steps := None;
                nec_spinozan_certainty := 0;
                nec_field_density := density |} in
  if (density_threshold ir <? density)%Z then
    do symmetry_score <- _calculate_bilateral_symmetry e;
    if Qltb (symmetry_threshold ir) symmetry_score then
      do necessity_vector <- _calculate_substance_vector e current_node;
      Returned {| jump_triggered := true;
                  nec_necessity_vector := Some necessity_vector;
                  nec_substance_unity_score := symmetry_score;
                  nec_bypass_steps := Some (density / 10)%Z;
                  nec_spinozan_certainty := 0.98;
                  nec_field_density := density |}
    else no_jump
  else no_jump.

(** *** [ProprioceptionSystem] (lines 257-320) *)

Record ProprioceptionSystem := {
  position : Q * Q;
  target_safe_distance : Q;
  min_safe_distance : Q;
  prop_velocity : Q * Q;
  last_update : Q
}.

Definition ProprioceptionSystem_init (now : Q) : ProprioceptionSystem :=
  {| position := (960, 540);
     target_safe_distance := 250;
     min_safe_distance := 150;
     prop_velocity := (0, 0);
     last_update := now |}.

Definition update_physics
  (ps : ProprioceptionSystem) (current_pos : Q * Q) (dt now : Q)
  : outcome ProprioceptionSystem :=
  let dx := fst current_pos - fst (position ps) in
  let dy := snd current_pos - snd (position ps) in
  do vx <- (if Qltb 0 dt then truediv dx dt else Returned 0);
  do vy <- (if Qltb 0 dt then truediv dy dt else Returned 0);
  Returned {| position := current_pos;
              target_safe_distance := target_safe_distance ps;
              min_safe_distance := min_safe_distance ps;
              prop_velocity := (vx, vy);
              last_update := now |}.

Definition calculate_navigation_vector
  (ps : ProprioceptionSystem) (cursor_pos : Q * Q)
  (habit_heatmap gravity_density : Q) (random_x random_y : Q)
  : outcome (Q * Q) :=
  let dx := fst cursor_pos - fst (position ps) in
  let dy := snd cursor_pos - snd (position ps) in
  let dist := math_sqrt (dx * dx + dy * dy) in
  if Qeq_bool dist 0 then Returned (0, 0)
  else
    do force_mag <-
      (if Qltb dist (min_safe_distance ps) then
         truediv (-1 * (min_safe_distance ps - dist)) (min_safe_distance ps)
       else if Qltb (target_safe_distance ps) dist then
         Returned (0.5 * (dist - target_safe_distance ps) / 1000)
       else Returned 0);
    do nx <- truediv dx dist;
    do ny <- truediv dy dist;
    let nav0 := (nx * force_mag, ny * force_mag) in
    let nav1 :=
      if negb (Qeq_bool habit_heatmap 0) && Qltb 0.5 habit_heatmap then
        (fst nav0 + (random_x - 0.5) * habit_heatmap,
         snd nav0 + (random_y - 0.5) * habit_heatmap)
      else nav0 in
    let nav2 :=
      if Qltb 0 gravity_density then
        (fst nav1 - nx * gravity_density * 0.5,
         snd nav1 - ny * gravity_density * 0.5)
      else nav1 in
    Returned nav2.

(** *** [CrossDomainPredicate] (lines 73-115) *)

Definition truthy_flag (b : option bool) : bool := default false b.

Definition _calculate_axiomatic_alignment (t : CrossDomainPredicate) : outcome Q :=
  match epistemic_traces t with
  | [] => Returned 0
  | traces =>
      let confidences := map (fun kv => default 0.5 (sh_confidence (snd kv))) traces in
      truediv (Py.sum confidences) (inject_Z (Z.of_nat (List.length confidences)))
  end.

Definition pulse (t : CrossDomainPredicate) : outcome Pulse :=
  let logic := logic_validity t in
  let mode :=
    if bool_decide (active_mode logic = "") then
      if truthy_flag (intuitive_jump_triggered logic) then "INTUITION-JUMP"
      else if truthy_flag (custom_habit_active logic) then "HABIT"
      else "GUARD"
    else active_mode logic in
  do alignment <- _calculate_axiomatic_alignment t;
  Returned {| glow_intensity := confidence t;
              cognitive_mode := mode;
              spatial_coordinate := hlsf_node t;
              epistemic_alignment := alignment;
              deterministic := Qltb 0.95 (confidence t);
              predictive_intent := inductive_prediction logic;
              jump_vector :=
                match necessity_vector logic with
                | None => Some []
                | Some None => None
                | Some (Some v) => Some [fst v; snd v]
                end;
              pulse_navigation_vector := navigation_vector t;
              pulse_final_verdict := th_final_verdict t;
              pulse_final_verdict_source := th_final_verdict_source t |}.

(** *** [SF_ORB_Controller] (lines 323-750) *)

Record SF_ORB_Controller := {
  engine : Engine;
  tribunal : Tribunal;
  vaults : Vault;
  habit_tracker : HabitTracker;
  intuitive_recognizer : IntuitiveRecognizer;
  gravity_bridge : EpistemicGravityBridge;
  proprioception : ProprioceptionSystem;
  bayes : Bayes
}.

(** What [cognitively_emerge] returns when it does not return [None]:
    the vault's cached answer, or the thought of a full cycle. *)
Inductive Emergence :=
| Bypass (cached : Cached)
| Emerged (thought : CrossDomainPredicate).

Definition _check_sovereignty (stimulus : Stimulus) : bool :=
  if is_True (stim_test_mode stimulus) then true
  else if bool_decide (stim_type stimulus = Some "surveillance_probe") then false
  else true.

Definition mode_in_guard (s : LogicState) : bool :=
  bool_decide (active_mode s = "GUARD") || bool_decide (active_mode s = "GUARD-HABIT").

Definition _synthesize_logic_triad
  (e : Engine) (b : Bayes)
  (inductive : option Prediction) (intuitive : Necessity)
  (bayes_shadows : list (string * Q)) : LogicState :=
  let live_density := Z.of_nat (List.length (field_map e)) in
  let breach_density := default 0%Z (last_density_breach e) in
  let effective_density := Z.max live_density breach_density in
  if jump_triggered intuitive then
    {| field_density := effective_density;
       active_mode := "INTUITION-JUMP";
       intuitive_jump_triggered := Some true;
       necessity_vector := Some (nec_necessity_vector intuitive);
       spinozan_certainty := Some (nec_spinozan_certainty intuitive);
       substance_unity_score := Some (nec_substance_unity_score intuitive);
       inductive_prediction := None;
       hume_vivacity := None;
       custom_habit_active := None;
       bayes_habit_prob := None;
       bayes_jump_prob := None;
       bayes_guard_prob := None;
       epistemic_bayes := None;
       density_penalty := None |}
  else
    let habit_post := default 0 (calculate_posterior b "habit_continues") in
    let jump_post := default 0 (calculate_posterior b "jump_necessary") in
    let guard_post := default 0 (calculate_posterior b "guard_sufficient") in
    let state :=
      {| field_density := effective_density;
         active_mode :=
           match inductive with
           | Some p => if Qltb 0.35 (pred_confidence p) then "HABIT" else "GUARD-HABIT"
           | None => "GUARD"
           end;
         intuitive_jump_triggered := None;
         necessity_vector := None;
         spinozan_certainty := None;
         substance_unity_score := None;
         inductive_prediction := inductive;
         hume_vivacity := option_map pred_hume_vivacity inductive;
         custom_habit_active :=
           option_map (fun p => Qltb 0.35 (pred_confidence p)) inductive;
         bayes_habit_prob := Some habit_post;
         bayes_jump_prob := Some jump_post;
         bayes_guard_prob := Some guard_post;
         epistemic_bayes := Some bayes_shadows;
         density_penalty := None |} in
    let density := field_density state in
    let state :=
      if mode_in_guard state && Qleb (purge_trigger_threshold e) (inject_Z density)
      then set_density_penalty 1 (set_active_mode "GUARD-HABIT" state)
      else state in
    let state :=
      if Qleb (max_field_density e * 0.95) (inject_Z density)
         && negb (bool_decide (active_mode state = "INTUITION-JUMP"))
      then set_density_penalty 1.5 (set_active_mode "INTUITION-JUMP" state)
      else state in
    let state :=
      if mode_in_guard state && Qltb 0.55 habit_post
      then set_active_mode "HABIT" state
      else state in
    let state :=
      if negb (bool_decide (active_mode state = "INTUITION-JUMP")) && Qltb 0.45 jump_post
      then set_active_mode "INTUITION-JUMP" state
      else state in
    state.

Definition _calculate_convergence
  (shadows : Shadows) (logic : LogicState) (thought_vec : list Q) : Q :=
  let base := 0.85 in
  let base :=
    if truthy_flag (intuitive_jump_triggered logic) then base + 0.14
    else if truthy_flag (custom_habit_active logic) then base + 0.08
    else base in
  let base := if (3 <=? List.length shadows)%nat then base + 0.02 else base in
  let vec_magnitude :=
    match thought_vec with
    | [] => 0
    | _ => Py.sum (map Qabs thought_vec)
    end in
  let base := base + Py.min (vec_magnitude * 0.001) 0.02 in
  Py.min base 0.99.

Definition seed_priors : list (string * (Q * Q)) :=
  [("habit_continues", (0.6, 1.2));
   ("jump_necessary", (0.3, 0.8));
   ("guard_sufficient", (0.7, 1.5))].

Definition _initialize_bayesian_priors (b : Bayes) : Bayes :=
  fold_left
    (fun b seed =>
       let '(hyp, (prob, strength)) := seed in
       let b := set_prior b hyp prob strength in
       add_evidence b hyp ("seed_" ++ hyp) prob "init" 0.01)
    seed_priors b.

(** [x or fallback] for a float-or-[None] [x]. *)
Definition or_else (x : option Q) (fallback : Q) : Q :=
  match x with
  | Some v => if Qeq_bool v 0 then fallback else v
  | None => fallback
  end.

Definition _update_bayesian_shadows (b : Bayes) (shadows : Shadows) (now : Q)
  : Bayes * list (string * Q) :=
  let timestamp_id := "stim_" ++ str_int (py_int (now * 1000)) in
  fold_left
    (fun (acc : Bayes * list (string * Q)) entry =>
       let '(b, bayes_view) := acc in
       let '(mind_name, shadow) := entry in
       let hyp := mind_name ++ "_pattern_persistence" in
       let likelihood := default 0.5 (sh_confidence shadow) in
       let reliability := default 1 (sh_reliability shadow) in
       let b := if has_prior b hyp then b else set_prior b hyp 0.5 1 in
       let b :=
         add_evidence b hyp (timestamp_id ++ "_" ++ mind_name)
                      likelihood mind_name reliability in
       (b, (bayes_view ++ [(mind_name, or_else (calculate_posterior b hyp) likelihood)])%list))
    shadows (b, []).

(** The three success flags of [_update_bayesian_outcome]. *)
Definition habit_success (logic_state : LogicState) : bool :=
  (bool_decide (active_mode logic_state = "HABIT")
   || bool_decide (active_mode logic_state = "GUARD-HABIT"))
  && Qltb 0.4 (default 0 (option_map pred_confidence (inductive_prediction logic_state))).

Definition jump_success (logic_state : LogicState) : bool :=
  bool_decide (active_mode logic_state = "INTUITION-JUMP")
  && truthy_flag (intuitive_jump_triggered logic_state).

Definition guard_success (logic_state : LogicState) : bool :=
  bool_decide (active_mode logic_state = "GUARD")
  && negb (habit_success logic_state)
  && negb (jump_success logic_state).

Definition _update_bayesian_outcome (b : Bayes) (logic_state : LogicState) : Bayes :=
  let b := update_with_outcome b "habit_continues" (habit_success logic_state) 0.7 in
  let b := update_with_outcome b "jump_necessary" (jump_success logic_state) 0.6 in
  update_with_outcome b "guard_sufficient" (guard_success logic_state) 0.5.

Definition _verdict_from_mode (mode : string) : string :=
  if bool_decide (mode = "INTUITION-JUMP") then "escalate"
  else if bool_decide (mode = "HABIT") then "act"
  else if bool_decide (mode = "GUARD-HABIT") then "monitor"
  else "no_act".

Definition _glyph_trace (stimulus : Stimulus) (stardate : Q) : string :=
  let canonical := json_dumps_sorted stimulus in
  let payload := str_float stardate ++ ":" ++ canonical in
  sha256_hexdigest payload.

(** [max(values)] and [min(values)] of a non-empty list. *)
Definition max_of (first : Q) (others : list Q) : Q :=
  fold_left (fun m v => if Qltb m v then v else m) others first.

Definition min_of (first : Q) (others : list Q) : Q :=
  fold_left (fun m v => if Qltb v m then v else m) others first.

Definition _softmax (values : list Q) : outcome (list Q) :=
  match values with
  | [] => Returned []
  | v :: vs =>
      let max_val := max_of v vs in
      let exps := map (fun v => math_exp (v - max_val)) values in
      let total := or_else (Some (Py.sum exps)) 1 in
      traverse (fun e => truediv e total) exps
  end.

Definition _normalize_weights (weights : list (string * Q)) : outcome (list (string * Q)) :=
  let total := or_else (Some (Py.sum (map snd weights))) 1 in
  traverse (fun kv => do w <- truediv (snd kv) total; Returned (fst kv, w)) weights.

Definition empty_shadow : Shadow :=
  {| sh_confidence := None; sh_reliability := None |}.

Definition _build_core_4_returns
  (shadows : Shadows) (bayes_shadows : list (string * Q)) (logic_state : LogicState)
  : outcome Core4 :=
  let caleon_shadow := default empty_shadow (shadows_get "spinoza" shadows) in
  let kaygee_shadow := default empty_shadow (shadows_get "kant" shadows) in
  let cali_shadow := default empty_shadow (shadows_get "hume" shadows) in
  let locke_shadow := default empty_shadow (shadows_get "locke" shadows) in
  let verdict := _verdict_from_mode (active_mode logic_state) in
  do weights <-
    _normalize_weights
      [("caleon", default 0.5 (sh_confidence caleon_shadow));
       ("kaygee", default 0.5 (sh_confidence kaygee_shadow));
       ("cali_x_one", default 0.5 (sh_confidence cali_shadow));
       ("empirical", default 0.5 (sh_confidence locke_shadow))];
  Returned
    {| caleon :=
         {| c4_shadow := caleon_shadow;
            c4_confidence := default 0.5 (sh_confidence caleon_shadow);
            advisory_verdict := verdict |};
       kaygee :=
         {| c4_shadow := kaygee_shadow;
            c4_confidence := default 0.5 (sh_confidence kaygee_shadow);
            advisory_verdict := verdict |};
       cali_x_one :=
         {| c4_shadow := cali_shadow;
            c4_confidence := default 0.5 (sh_confidence cali_shadow);
            advisory_verdict := verdict |};
       ecm :=
         {| convergence_weights := weights;
            ecm_inputs :=
              [("locke", locke_shadow); ("hume", cali_shadow);
               ("kant", kaygee_shadow); ("spinoza", caleon_shadow)];
            ecm_note := "ECM emits convergence weights only (advisory)." |} |}.

Definition _build_advisory_plus_one (core : Core4) : outcome AdvisoryPlusOne :=
  let c_caleon := c4_confidence (caleon core) in
  let c_kaygee := c4_confidence (kaygee core) in
  let c_cali := c4_confidence (cali_x_one core) in
  let values := [c_caleon; c_kaygee; c_cali] in
  do weights <- _softmax values;
  let gradients := combine ["caleon"; "kaygee"; "cali_x_one"] weights in
  let entropy :=
    - Py.sum (map (fun p => p * math_log (p + (1 # 1000000000))) weights) in
  let spread := max_of c_caleon [c_kaygee; c_cali] - min_of c_caleon [c_kaygee; c_cali] in
  let reweight := Qltb 1 entropy || Qltb 0.2 spread in
  Returned
    {| advisory_only := true;
       confidence_gradients := gradients;
       tension_indicators :=
         {| entropy := entropy; spread := spread; reweight_recommended := reweight |};
       suggestion :=
         if reweight then "consider re-weighting high-tension lobes"
         else "no reweight suggested" |}.

Definition has_event (kind : string) (evs : list CaliEvent) : bool :=
  existsb (fun e => String.eqb (ev_type e) kind) evs.

Definition _build_cali_reflection (adv : AdvisoryPlusOne) (logic_state : LogicState)
  : CaliReflection :=
  let tension := tension_indicators adv in
  let evs : list CaliEvent :=
    ((if Qltb 0.2 (spread tension)
     then [{| ev_type := "drift"; ev_detail := "confidence spread exceeded threshold" |}]
     else [])
    ++ (if Qltb 1 (entropy tension)
        then [{| ev_type := "anomaly"; ev_detail := "high entropy in lobe gradients" |}]
        else [])
    ++ (if bool_decide (active_mode logic_state = "INTUITION-JUMP")
           && Qltb 0.9 (entropy tension)
        then [{| ev_type := "tension"; ev_detail := "intuition jump under high entropy" |}]
        else []))%list in
  {| observational_only := true;
     events := evs;
     flags :=
       {| drift_detected := has_event "drift" evs;
          anomaly_detected := has_event "anomaly" evs;
          ethical_tension := has_event "tension" evs |} |}.

Definition deliberation_path : string :=
  "UCM Core-4 deliberation (ECM advisory only)".

Definition _build_correlation_envelope
  (stimulus : Stimulus) (shadows : Shadows) (bayes_shadows : list (string * Q))
  (logic_state : LogicState) (conf : Q) (now : Q) : outcome Envelope :=
  let trace := _glyph_trace stimulus now in
  do core <- _build_core_4_returns shadows bayes_shadows logic_state;
  do adv <- _build_advisory_plus_one core;
  let reflection := _build_cali_reflection adv logic_state in
  let verdict := _verdict_from_mode (active_mode logic_state) in
  Returned
    {| stardate := now;
       glyph_trace := trace;
       core_4 := core;
       advisory_plus_one := adv;
       cali_reflection := reflection;
       final_verdict := verdict;
       final_verdict_source := deliberation_path;
       env_confidence := conf |}.

Definition emergency_purge (c : SF_ORB_Controller) : bool * SF_ORB_Controller :=
  let before := List.length (field_map (engine c)) in
  if (1000 <? before)%nat then
    (true,
     {| engine := _edge_cutter_purge (engine c);
        tribunal := tribunal c;
        vaults := vaults c;
        habit_tracker := habit_tracker c;
        intuitive_recognizer := intuitive_recognizer c;
        gravity_bridge := gravity_bridge c;
        proprioception := proprioception c;
        bayes := bayes c |})
  else (false, c).

(** Attribute assignments on the controller. *)
Definition set_engine (e : Engine) (c : SF_ORB_Controller) : SF_ORB_Controller :=
  {| engine := e; tribunal := tribunal c; vaults := vaults c;
     habit_tracker := habit_tracker c;
     intuitive_recognizer := intuitive_recognizer c;
     gravity_bridge := gravity_bridge c;
     proprioception := proprioception c; bayes := bayes c |}.

Definition set_tribunal (t : Tribunal) (c : SF_ORB_Controller) : SF_ORB_Controller :=
  {| engine := engine c; tribunal := t; vaults := vaults c;
     habit_tracker := habit_tracker c;
     intuitive_recognizer := intuitive_recognizer c;
     gravity_bridge := gravity_bridge c;
     proprioception := proprioception c; bayes := bayes c |}.

Definition set_vaults (v : Vault) (c : SF_ORB_Controller) : SF_ORB_Controller :=
  {| engine := engine c; tribunal := tribunal c; vaults := v;
     habit_tracker := habit_tracker c;
     intuitive_recognizer := intuitive_recognizer c;
     gravity_bridge := gravity_bridge c;
     proprioception := proprioception c; bayes := bayes c |}.

Definition set_habit_tracker (ht : HabitTracker) (c : SF_ORB_Controller) : SF_ORB_Controller :=
  {| engine := engine c; tribunal := tribunal c; vaults := vaults c;
     habit_tracker := ht;
     intuitive_recognizer := intuitive_recognizer c;
     gravity_bridge := gravity_bridge c;
     proprioception := proprioception c; bayes := bayes c |}.

Definition set_gravity_bridge (g : EpistemicGravityBridge) (c : SF_ORB_Controller)
  : SF_ORB_Controller :=
  {| engine := engine c; tribunal := tribunal c; vaults := vaults c;
     habit_tracker := habit_tracker c;
     intuitive_recognizer := intuitive_recognizer c;
     gravity_bridge := g;
     proprioception := proprioception c; bayes := bayes c |}.

Definition set_proprioception (ps : ProprioceptionSystem) (c : SF_ORB_Controller)
  : SF_ORB_Controller :=
  {| engine := engine c; tribunal := tribunal c; vaults := vaults c;
     habit_tracker := habit_tracker c;
     intuitive_recognizer := intuitive_recognizer c;
     gravity_bridge := gravity_bridge c;
     proprioception := ps; bayes := bayes c |}.

Definition set_bayes (b : Bayes) (c : SF_ORB_Controller) : SF_ORB_Controller :=
  {| engine := engine c; tribunal := tribunal c; vaults := vaults c;
     habit_tracker := habit_tracker c;
     intuitive_recognizer := intuitive_recognizer c;
     gravity_bridge := gravity_bridge c;
     proprioception := proprioception c; bayes := b |}.

(** [__init__] (lines 326-338), given the freshly built collaborators. *)
Definition SF_ORB_Controller_init
  (e : Engine) (t : Tribunal) (v : Vault) (g : EpistemicGravityBridge) (b : Bayes)
  (now : Q) : SF_ORB_Controller :=
  {| engine := e; tribunal := t; vaults := v;
     habit_tracker := HabitTracker_init;
     intuitive_recognizer := IntuitiveRecognizer_init;
     gravity_bridge := g;
     proprioception := ProprioceptionSystem_init now;
     bayes := _initialize_bayesian_priors b |}.

(** An exception leaves the controller as it is when it is raised. *)
Definition try {A B S} (m : outcome A) (s : S) (k : A -> outcome B * S)
  : outcome B * S :=
  match m with
  | Returned a => k a
  | Raised exn => (Raised exn, s)
  end.

(** The locals of [cognitively_emerge] that are live at the bypass test. *)
Record Perception := {
  per_gravity_stats : GravityStats;
  per_nav_vector : Q * Q;
  per_node : Node;
  per_intuition : Necessity;
  per_inductive : option Prediction
}.

(** [cognitively_emerge], lines 356-388: from the observation to the
    inductive prediction. *)
Definition perceive (c : SF_ORB_Controller) (stimulus : Stimulus) (amb : Ambient)
  : outcome Perception * SF_ORB_Controller :=
  let '(ht, vault, _) :=
    record_observation (habit_tracker c) (vaults c) stimulus (t_observation amb) in
  let c := set_habit_tracker ht (set_vaults vault c) in
  let '(bridge, stats) := process_stimulus (gravity_bridge c) stimulus in
  let c := set_gravity_bridge bridge c in
  let orb_pos := default (position (proprioception c)) (stim_orb_coordinates stimulus) in
  try (update_physics (proprioception c) orb_pos 0.1 (t_physics amb)) c (fun ps =>
  let c := set_proprioception ps c in
  let cursor_pos := default (0, 0) (stim_coordinates stimulus) in
  let gravity_density := default 0 (stats_get "renewal_pressure" stats) in
  let current_orb_quad := _coords_to_quadrant (position (proprioception c)) in
  let habit_heat := get_quadrant_heat (habit_tracker c) current_orb_quad in
  try (calculate_navigation_vector (proprioception c) cursor_pos habit_heat
         gravity_density (rnd_x amb) (rnd_y amb)) c (fun nav_vector =>
  let '(e, node) := map_adjacency (engine c) stimulus in
  let c := set_engine e c in
  try (check_necessity (intuitive_recognizer c) (engine c) stimulus node) c
      (fun intuition =>
  let inductive :=
    if jump_triggered intuition then None
    else predict_next (habit_tracker c) (vaults c) in
  (Returned {| per_gravity_stats := stats;
               per_nav_vector := nav_vector;
               per_node := node;
               per_intuition := intuition;
               per_inductive := inductive |}, c)))).

(** [cognitively_emerge], lines 396-461: the full cycle after a missed
    bypass. *)
Definition synthesize
  (c : SF_ORB_Controller) (stimulus : Stimulus) (amb : Ambient) (p : Perception)
  : outcome CrossDomainPredicate * SF_ORB_Controller :=
  let node := per_node p in
  let '(trib, shadows) := generate_epistemic_shadow (tribunal c) stimulus in
  let c := set_tribunal trib c in
  let '(b, bayes_shadows) := _update_bayesian_shadows (bayes c) shadows (t_bayes amb) in
  let c := set_bayes b c in
  let logic_state :=
    _synthesize_logic_triad (engine c) (bayes c)
      (per_inductive p) (per_intuition p) bayes_shadows in
  let '(e, neighbors) := get_recursive_neighbors (engine c) node 3 in
  let c := set_engine e c in
  let thought_vec :=
    match neighbors with
    | [] => repeat 0 (dimension (engine c))
    | _ => calculate_thought_vector (engine c) (neighbors ++ [node])
    end in
  let conf := _calculate_convergence shadows logic_state thought_vec in
  let spatial_coord :=
    {| node_id := "NODE_" ++ str_int (node_n node) ++ "_" ++ str_int (node_k node);
       recursion_depth := node_k node;
       sc_coordinates := node_coordinates node;
       sc_adjacency_value := node_adjacency_value node |} in
  try (_build_correlation_envelope stimulus shadows bayes_shadows logic_state conf
         (t_stardate amb)) c (fun envelope =>
  let thought :=
    {| epistemic_traces := shadows;
       hlsf_node := spatial_coord;
       logic_validity := logic_state;
       confidence := conf;
       timestamp := t_thought amb;
       gravity_stats := Some (per_gravity_stats p);
       navigation_vector := Some (per_nav_vector p);
       ucm_envelope := Some envelope;
       th_cali_reflection := Some (cali_reflection envelope);
       th_final_verdict := Some (final_verdict envelope);
       th_final_verdict_source := Some (final_verdict_source envelope) |} in
  let c := set_bayes (_update_bayesian_outcome (bayes c) logic_state) c in
  try (pulse thought) c (fun predicate =>
  let vault :=
    crystallize (vaults c) (KeyStimulus stimulus)
      (CrystalValue
         {| cr_predicate := predicate;
            cr_confidence := conf;
            triad_c_mode := active_mode logic_state;
            cr_field_density := field_density logic_state;
            cr_ucm_envelope := envelope;
            cr_cali_reflection := cali_reflection envelope |}) in
  (Returned thought, set_vaults vault c))).

Definition cognitively_emerge
  (c : SF_ORB_Controller) (stimulus : Stimulus) (amb : Ambient)
  : outcome (option Emergence) * SF_ORB_Controller :=
  if negb (_check_sovereignty stimulus) then (Returned None, c)
  else
    match perceive c stimulus amb with
    | (Raised exn, c) => (Raised exn, c)
    | (Returned p, c) =>
        match lightning_query (vaults c) stimulus with
        | Some bypass => (Returned (Some (Bypass bypass)), c)
        | None =>
            match synthesize c stimulus amb p with
            | (Raised exn, c) => (Raised exn, c)
            | (Returned thought, c) => (Returned (Some (Emerged thought)), c)
            end
        end
    end.

(** *** [CALIFloatingOrb] ([floating_assistant_orb.py], lines 70-262)

    The bridge object that feeds cursor positions to the controller.  Its
    voice and microphone are not used on this path.  The JSON line it
    prints on stdout is returned as a message. *)








End Controller.

(** ** The specification's formulas

    Definitions that follow the words of the specification, to be compared
    with the code above. *)

Module Spec.

(** §4.6: base 0.85; +0.14 if the jump triggered, else +0.08 if the habit
    is active; +0.02 with at least 3 shadows; + min(0.001 × magnitude,
    0.02); clamped to at most 0.99. *)
Definition convergence_confidence
  (jump habit : bool) (shadow_count : nat) (magnitude : Q) : Q :=
  Qmin
    (0.85
     + (if jump then 0.14 else if habit then 0.08 else 0)
     + (if (3 <=? shadow_count)%nat then 0.02 else 0)
     + Qmin (0.001 * magnitude) 0.02)
    0.99.

(** The aggregated magnitude of a thought vector: the sum of the absolute
    values of its components. *)
Fixpoint magnitude (vec : list Q) : Q :=
  match vec with
  | [] => 0
  | v :: rest => Qabs v + magnitude rest
  end.

(** All unordered pairs of elements at distinct positions of a list. *)
Fixpoint pairs {A} (xs : list A) : list (A * A) :=
  match xs with
  | [] => []
  | x :: rest => map (pair x) rest ++ pairs rest
  end.

(** §4.3: two coordinate lists are mirror images within tolerance when
    |x1 + x2| < 0.2 and |y1 − y2| < 0.2. *)
Definition mirror_images (p : list Q * list Q) : bool :=
  match fst p, snd p with
  | x1 :: y1 :: _, x2 :: y2 :: _ =>
      if Qlt_le_dec (Qabs (x1 + x2)) 0.2
      then if Qlt_le_dec (Qabs (y1 - y2)) 0.2 then true else false
      else false
  | _, _ => false
  end.

(** §4.3: the fraction of node-coordinate pairs that are mirror images,
    over all pairs. *)
Definition bilateral_symmetry (coords : list (list Q)) : Q :=
  let all_pairs := pairs coords in
  inject_Z (Z.of_nat (List.length (filter mirror_images all_pairs)))
  / inject_Z (Z.of_nat (List.length all_pairs)).

(** §4.3: the centroid of the node coordinates, one dimension at a time. *)
Definition centroid_along (axis : nat) (coords : list (list Q)) : Q :=
  fold_right Qplus 0 (map (fun c => nth axis c 0) coords)
  / inject_Z (Z.of_nat (List.length coords)).

(** §3: the pattern key is the underscore-joined sequence of quadrant
    labels of the last 3 observations. *)
Definition pattern_key (buffer : list Observation) : string :=
  match rev buffer with
  | o3 :: o2 :: o1 :: _ =>
      obs_quadrant o1 ++ "_" ++ obs_quadrant o2 ++ "_" ++ obs_quadrant o3
  | _ => ""
  end.

(** §4.7: the fixed mode-to-verdict table. *)
Inductive verdict_table : string -> string -> Prop :=
| verdict_escalate : verdict_table "INTUITION-JUMP" "escalate"
| verdict_act : verdict_table "HABIT" "act"
| verdict_monitor : verdict_table "GUARD-HABIT" "monitor"
| verdict_no_act mode :
    mode <> "INTUITION-JUMP" -> mode <> "HABIT" -> mode <> "GUARD-HABIT" ->
    verdict_table mode "no_act".

(** The density the mode synthesizer compares against the two
    thresholds: the larger of the live node count and the engine's last
    recorded density breach (0 when none was recorded). *)
Definition effective_density {HE : HLSFEngine} (e : Engine) : Z :=
  Z.max (Z.of_nat (List.length (field_map e))) (default 0%Z (last_density_breach e)).

End Spec.

(** ** Sample collaborators

    Small executable implementations of the interfaces, on which the model
    is evaluated at concrete inputs. *)

Module Sample.

(** A vault that keeps every crystallized pair, newest first.  The
    posteriori cache is the set of habit records; a lightning query hits
    the newest crystal stored under a stimulus of the same type. *)
Definition vault_state := list (VaultKey * VaultValue).

Fixpoint vault_habit (v : vault_state) (k : string) : option HabitRecord :=
  match v with
  | (KeyString k', HabitValue r) :: rest =>
      if String.eqb k' k then Some r else vault_habit rest k
  | _ :: rest => vault_habit rest k
  | [] => None
  end.

Fixpoint vault_crystal (v : vault_state) (s : Stimulus) : option Crystal :=
  match v with
  | (KeyStimulus s', CrystalValue c) :: rest =>
      if bool_decide (stim_type s' = stim_type s) then Some c else vault_crystal rest s
  | _ :: rest => vault_crystal rest s
  | [] => None
  end.

Definition vault : VaultManager :=
  {| Vault := vault_state;
     Cached := Crystal;
     posteriori_cache_get := vault_habit;
     crystallize := fun v k x => (k, x) :: v;
     lightning_query := vault_crystal |}.

(** A Bayesian engine that records the calls it receives, oldest first;
    its posterior is the latest prior set for the hypothesis. *)
Inductive bayes_call :=
| SetPrior (hypothesis : string) (probability strength : Q)
| AddEvidence (hypothesis evidence_id : string) (likelihood : Q)
              (source : string) (reliability : Q)
| UpdateWithOutcome (hypothesis : string) (success : bool) (weight : Q).

Fixpoint latest_prior (calls : list bayes_call) (h : string) (found : option Q) : option Q :=
  match calls with
  | [] => found
  | SetPrior h' p _ :: rest =>
      latest_prior rest h (if String.eqb h' h then Some p else found)
  | _ :: rest => latest_prior rest h found
  end.

Definition bayes_engine : BayesianEngine :=
  {| Bayes := list bayes_call;
     has_prior := fun b h => bool_decide (is_Some (latest_prior b h None));
     set_prior := fun b h p s => (b ++ [SetPrior h p s])%list;
     add_evidence := fun b h i l s r => (b ++ [AddEvidence h i l s r])%list;
     calculate_posterior := fun b h => latest_prior b h None;
     update_with_outcome := fun b h s w => (b ++ [UpdateWithOutcome h s w])%list |}.

(** An HLSF engine whose field is a list of nodes; mapping a stimulus
    returns a node at its coordinates without growing the field. *)
Record engine_state := {
  es_nodes : list Node;
  es_breach : option Z;
  es_purge : Q;
  es_max : Q;
  es_dimension : nat
}.

Definition node_at (coords : list Q) : Node :=
  {| node_n := 0; node_k := 0; node_coordinates := coords; node_adjacency_value := 0 |}.

Definition hlsf : HLSFEngine :=
  {| Engine := engine_state;
     field_map := es_nodes;
     last_density_breach := es_breach;
     purge_trigger_threshold := es_purge;
     max_field_density := es_max;
     dimension := es_dimension;
     map_adjacency := fun e s =>
       (e, node_at (let c := default (0, 0) (stim_coordinates s) in [fst c; snd c]));
     get_recursive_neighbors := fun e _ _ => (e, []);
     calculate_thought_vector := fun _ nodes => concat (map node_coordinates nodes);
     _edge_cutter_purge := fun e =>
       {| es_nodes := []; es_breach := es_breach e; es_purge := es_purge e;
          es_max := es_max e; es_dimension := es_dimension e |} |}.

(** A tribunal of four minds with fixed scores. *)
Definition four_shadows : Shadows :=
  [("locke", {| sh_confidence := Some 0.7; sh_reliability := Some 1 |});
   ("hume", {| sh_confidence := Some 0.6; sh_reliability := Some 0.9 |});
   ("kant", {| sh_confidence := Some 0.8; sh_reliability := Some 1 |});
   ("spinoza", {| sh_confidence := Some 0.75; sh_reliability := None |})].

Definition tribunal_of_four : FourMindTribunal :=
  {| Tribunal := unit;
     generate_epistemic_shadow := fun t _ => (t, four_shadows) |}.

(** A space field that counts its steps. *)
Definition space_field : SpaceFieldCognition :=
  {| SpaceField := Z;
     DIM := fun _ => 32%Z;
     field_step := Z.succ;
     broadcast_to_field := fun f _ _ _ _ => f;
     get_field_stats := fun f => [("renewal_pressure", 0)] |}.

(** Rational stand-ins for the library functions. *)
Definition pylib : PyLib :=
  {| math_exp := fun x => 1 + x / 2;
     math_log := fun x => x - 1;
     math_sqrt := fun x => x;
     sha256_hexdigest := fun s => s;
     json_dumps_sorted := fun s => default "" (stim_type s);
     str_float := fun _ => "t";
     str_int := fun _ => "n" |}.

Definition ambient : Ambient :=
  {| t_observation := 1; t_physics := 1; t_bayes := 1; t_thought := 1;
     t_stardate := 1; rnd_x := 0.5; rnd_y := 0.5 |}.

(** The stimulus of the module's [__main__] block, without its meta. *)
Definition cursor_at (x y : Q) : Stimulus :=
  {| stim_type := Some "cursor_movement";
     stim_coordinates := Some (x, y);
     stim_velocity := Some 5;
     stim_orb_coordinates := None;
     stim_meta := None;
     stim_extra := [("intent", "navigation")] |}.

Definition probe : Stimulus :=
  {| stim_type := Some "surveillance_probe";
     stim_coordinates := None;
     stim_velocity := None;
     stim_orb_coordinates := None;
     stim_meta := Some (Some (VStr "yes"));
     stim_extra := [] |}.

Definition quiet_engine : engine_state :=
  {| es_nodes := []; es_breach := None; es_purge := 100; es_max := 1000;
     es_dimension := 18 |}.

(** A field of 51 nodes at the origin: every pair is a mirror pair. *)
Definition dense_engine : engine_state :=
  {| es_nodes := repeat (node_at [0; 0; 0]) 51; es_breach := None;
     es_purge := 100; es_max := 1000; es_dimension := 18 |}.

(** A field that has emptied after a breach of 120 nodes. *)
Definition breached_engine : engine_state :=
  {| es_nodes := [node_at [1; 2]]; es_breach := Some 120%Z;
     es_purge := 100; es_max := 1000; es_dimension := 18 |}.

Definition controller (e : engine_state)
  : SF_ORB_Controller (VM := vault) (BE := bayes_engine) (HE := hlsf)
      (FT := tribunal_of_four) (SF := space_field) :=
  SF_ORB_Controller_init (VM := vault) (BE := bayes_engine) (HE := hlsf)
    (FT := tribunal_of_four) (SF := space_field)
    e tt [] (Some (@Build_GravityWiring space_field 0%Z 32%Z)) [] 0.

(** A tracker that has recorded three cursor positions in the NW
    quadrant, as [record_observation] leaves it. *)
Definition nw_observation (now : Q) : Observation :=
  {| obs_quadrant := "NW"; obs_coords := (100, 200); obs_velocity := 5;
     obs_timestamp := now |}.

Definition tracker_after_three : HabitTracker :=
  {| sequence_buffer := [nw_observation 1; nw_observation 2; nw_observation 3];
     pattern_cache := {["NW_NW_NW" := 1%Z]} |}.

(** The sample controller after one full cycle on a cursor stimulus: its
    vault now holds a crystal for that stimulus. *)
Definition run (e : engine_state) (s : Stimulus) :=
  cognitively_emerge (VM := vault) (BE := bayes_engine) (HE := hlsf)
    (FT := tribunal_of_four) (SF := space_field) (PL := pylib)
    (controller e) s ambient.

Definition warm_controller :=
  snd (run quiet_engine (cursor_at 100 200)).

Definition no_jump : Necessity :=
  {| jump_triggered := false;
     nec_necessity_vector := None;
     nec_substance_unity_score := 0;
     nec_bypass_steps := None;
     nec_spinozan_certainty := 0;
     nec_field_density := 1 |}.


End Sample.

(** ** Properties *)

(** *** Arithmetic of the embedding *)

Lemma Qltb_lt (x y : Q) : Qltb x y = true <-> x < y.
Proof.
  unfold Qltb. rewrite negb_true_iff.
  split.
  - intros H. apply Qnot_le_lt. intros Hle.
    apply Qle_bool_iff in Hle. congruence.
  - intros H. destruct (Qle_bool y x) eqn:E; [|reflexivity].
    apply Qle_bool_iff in E. lra.
Qed.

Lemma Qltb_ge (x y : Q) : Qltb x y = false <-> y <= x.
Proof.
  unfold Qltb. rewrite negb_false_iff. apply Qle_bool_iff.
Qed.

Lemma Qleb_le (x y : Q) : Qleb x y = true <-> x <= y.
Proof. apply Qle_bool_iff. Qed.

Lemma Qltb_cases (x y : Q) :
  (Qltb x y = true /\ x < y) \/ (Qltb x y = false /\ y <= x).
Proof.
  destruct (Qltb x y) eqn:E.
  - left. split; [reflexivity | now apply Qltb_lt].
  - right. split; [reflexivity | now apply Qltb_ge].
Qed.

Lemma pymin_Qmin (x y : Q) : Py.min x y == Qmin x y.
Proof.
  unfold Py.min.
  destruct (Qltb_cases y x) as [[-> H] | [-> H]];
    destruct (Q.min_spec x y) as [[H1 ->] | [H1 ->]]; lra.
Qed.

Lemma pymin_le_l (x y : Q) : Py.min x y <= x.
Proof. rewrite pymin_Qmin. apply Q.le_min_l. Qed.

Lemma pymin_le_r (x y : Q) : Py.min x y <= y.
Proof. rewrite pymin_Qmin. apply Q.le_min_r. Qed.

Lemma pymin_glb (x y z : Q) : z <= x -> z <= y -> z <= Py.min x y.
Proof. intros. rewrite pymin_Qmin. now apply Q.min_glb. Qed.

Lemma fold_left_Qplus (xs : list Q) (a : Q) :
  fold_left Qplus xs a == a + fold_right Qplus 0 xs.
Proof.
  revert a. induction xs as [|x xs IH]; intros a; simpl.
  - lra.
  - rewrite IH. lra.
Qed.

Lemma pysum_magnitude (vec : list Q) :
  Py.sum (map Qabs vec) == Spec.magnitude vec.
Proof.
  unfold Py.sum. rewrite fold_left_Qplus.
  induction vec as [|v vec IH]; simpl; [lra|].
  rewrite <- IH. lra.
Qed.

Lemma magnitude_nonneg (vec : list Q) : 0 <= Spec.magnitude vec.
Proof.
  induction vec as [|v vec IH]; simpl; [lra|].
  pose proof (Qabs_nonneg v). lra.
Qed.

(** *** Convergence scorer *)

Lemma convergence_magnitude (vec : list Q) :
  match vec with
  | [] => 0
  | _ => Py.sum (map Qabs vec)
  end == Spec.magnitude vec.
Proof.
  destruct vec as [|v vec]; [reflexivity|]. apply pysum_magnitude.
Qed.

(** C4. The confidence of a cycle is the formula of §4.6 — base 0.85,
    +0.14 on a triggered jump, else +0.08 on an active habit, +0.02 with
    at least three shadows, + min(0.001 × magnitude, 0.02), clamped at
    0.99 — and so lies in [0, 0.99]. *)
Theorem C4_convergence_confidence
  (shadows : Shadows) (logic : LogicState) (thought_vec : list Q) :
  _calculate_convergence shadows logic thought_vec
  == Spec.convergence_confidence
       (truthy_flag (intuitive_jump_triggered logic))
       (truthy_flag (custom_habit_active logic))
       (List.length shadows)
       (Spec.magnitude thought_vec)
  /\ 0 <= _calculate_convergence shadows logic thought_vec
  /\ _calculate_convergence shadows logic thought_vec <= 0.99.
Proof.
  unfold _calculate_convergence, Spec.convergence_confidence.
  pose proof (convergence_magnitude thought_vec) as Hm.
  pose proof (magnitude_nonneg thought_vec) as Hpos.
  set (m := match thought_vec with [] => 0 | _ => _ end) in *.
  set (mag := Spec.magnitude thought_vec) in *.
  assert (Hc : Py.min (m * 0.001) 0.02 == Qmin (0.001 * mag) 0.02).
  { rewrite pymin_Qmin.
    destruct (Q.min_spec (m * 0.001) 0.02) as [[H1 ->] | [H1 ->]];
      destruct (Q.min_spec (0.001 * mag) 0.02) as [[H2 ->] | [H2 ->]]; lra. }
  assert (Hc0 : 0 <= Py.min (m * 0.001) 0.02).
  { apply pymin_glb; lra. }
  split; [|split].
  - rewrite pymin_Qmin.
    destruct (truthy_flag (intuitive_jump_triggered logic)),
             (truthy_flag (custom_habit_active logic)),
             (3 <=? List.length shadows)%nat;
      match goal with
      | |- Qmin ?a ?b == Qmin ?c ?d =>
          destruct (Q.min_spec a b) as [[? ->] | [? ->]];
          destruct (Q.min_spec c d) as [[? ->] | [? ->]]; lra
      end.
  - apply pymin_glb; [|lra].
    destruct (truthy_flag (intuitive_jump_triggered logic)),
             (truthy_flag (custom_habit_active logic)),
             (3 <=? List.length shadows)%nat; lra.
  - apply pymin_le_r.
Qed.

(** *** Necessity detector *)

Section NecessityProperties.

Context {HE : HLSFEngine}.

Lemma inject_Z_nonzero (z : Z) : z <> 0%Z -> ~ inject_Z z == 0.
Proof.
  intros Hz H. unfold Qeq in H. cbn [Qnum Qden inject_Z] in H. lia.
Qed.

Lemma truediv_returns (x y : Q) :
  ~ y == 0 -> truediv x y = Returned (x / y).
Proof.
  intros Hy. unfold truediv.
  destruct (Qeq_bool y 0) eqn:E; [|reflexivity].
  apply Qeq_bool_iff in E. contradiction.
Qed.

Lemma traverse_truediv (cs : list Q) (count : Q) :
  ~ count == 0 ->
  traverse (fun c => truediv c count) cs = Returned (map (fun c => c / count) cs).
Proof.
  intros Hc. induction cs as [|c cs IH]; simpl; [reflexivity|].
  rewrite truediv_returns by assumption. simpl. now rewrite IH.
Qed.

Lemma is_mirror_pair_spec (c1 c2 : list Q) :
  is_mirror_pair c1 c2 = Spec.mirror_images (c1, c2).
Proof.
  unfold is_mirror_pair, Spec.mirror_images; cbn [fst snd].
  destruct c1 as [|x1 [|y1 r1]]; try reflexivity.
  destruct c2 as [|x2 [|y2 r2]]; try reflexivity.
  destruct (Qlt_le_dec (Qabs (x1 + x2)) 0.2) as [H1|H1];
    destruct (Qlt_le_dec (Qabs (y1 - y2)) 0.2) as [H2|H2].
  - apply Qltb_lt in H1 as ->. apply Qltb_lt in H2 as ->. reflexivity.
  - apply Qltb_lt in H1 as ->. apply Qltb_ge in H2 as ->. reflexivity.
  - apply Qltb_ge in H1 as ->. reflexivity.
  - apply Qltb_ge in H1 as ->. reflexivity.
Qed.

Lemma count_mirrors_of_spec (c1 : list Q) (others : list (list Q)) (n : nat) :
  count_mirrors_of c1 others n
  = (n + List.length (filter Spec.mirror_images (map (pair c1) others)))%nat.
Proof.
  unfold count_mirrors_of. revert n.
  induction others as [|c2 others IH]; intros n; simpl; [lia|].
  rewrite IH, is_mirror_pair_spec.
  destruct (Spec.mirror_images (c1, c2)); simpl; lia.
Qed.

Lemma count_mirror_pairs_spec (coords : list (list Q)) (n : nat) :
  count_mirror_pairs coords n
  = (n + List.length (filter Spec.mirror_images (Spec.pairs coords)))%nat.
Proof.
  revert n. induction coords as [|c1 rest IH]; intros n; simpl; [lia|].
  rewrite IH, count_mirrors_of_spec, List.filter_app, List.length_app. lia.
Qed.

Lemma pairs_length {A} (xs : list A) :
  (2 * List.length (Spec.pairs xs) = List.length xs * (List.length xs - 1))%nat.
Proof.
  induction xs as [|x xs IH]; simpl; [reflexivity|].
  rewrite List.length_app, List.length_map. nia.
Qed.

Lemma total_pairs_of_pairs {A} (xs : list A) :
  total_pairs_of (List.length xs)
  == inject_Z (Z.of_nat (List.length (Spec.pairs xs))).
Proof.
  unfold total_pairs_of.
  pose proof (pairs_length xs) as H.
  assert (Hz : (Z.of_nat (List.length xs) * (Z.of_nat (List.length xs) - 1)
                = 2 * Z.of_nat (List.length (Spec.pairs xs)))%Z) by nia.
  rewrite Hz, inject_Z_mult. field.
Qed.

Lemma total_pairs_of_pos (n : nat) : (2 <= n)%nat -> 0 < total_pairs_of n.
Proof.
  intros Hn. unfold total_pairs_of.
  assert (H : (0 < Z.of_nat n * (Z.of_nat n - 1))%Z) by nia.
  assert (H' : 0 < inject_Z (Z.of_nat n * (Z.of_nat n - 1))).
  { rewrite <- (Zlt_Qlt 0). exact H. }
  apply Qlt_shift_div_l; lra.
Qed.

(** The symmetry score is always computed, and it is the fraction of
    mirror pairs among all pairs. *)
Lemma _calculate_bilateral_symmetry_spec (e : Engine) :
  exists score,
    _calculate_bilateral_symmetry e = Returned score
    /\ score == Spec.bilateral_symmetry (map node_coordinates (field_map e)).
Proof.
  unfold _calculate_bilateral_symmetry, Spec.bilateral_symmetry.
  destruct (field_map e) as [|n1 [|n2 nodes]] eqn:Hmap.
  - exists 0. split; [reflexivity|]. simpl. reflexivity.
  - exists 0. split; [reflexivity|]. simpl. reflexivity.
  - cbv beta iota zeta.
    set (ns := n1 :: n2 :: nodes) in *.
    assert (Hlen : (2 <= List.length ns)%nat) by (simpl; lia).
    assert (Hnons : (List.length ns <? 2)%nat = false)
      by (apply Nat.ltb_ge; exact Hlen).
    rewrite Hnons.
    pose proof (total_pairs_of_pos _ Hlen) as Hpos.
    apply Qltb_lt in Hpos as Hb. rewrite Hb.
    rewrite truediv_returns by lra.
    eexists. split; [reflexivity|].
    rewrite count_mirror_pairs_spec. simpl plus.
    rewrite <- (List.length_map node_coordinates ns) at 1.
    rewrite total_pairs_of_pairs. reflexivity.
Qed.

Lemma _calculate_bilateral_symmetry_small (e : Engine) :
  (List.length (field_map e) < 2)%nat ->
  _calculate_bilateral_symmetry e = Returned 0.
Proof.
  unfold _calculate_bilateral_symmetry.
  destruct (field_map e) as [|n1 [|n2 nodes]]; simpl; intros H;
    [reflexivity | reflexivity | lia].
Qed.

(** C10. The symmetry computation always returns, never dividing by
    zero: either the field holds fewer than two nodes — then the score is
    0.0 and [check_necessity] returns the no-jump record with score 0.0,
    on the empty field too — or it holds at least two, and the pair count
    the score is divided by is strictly positive. *)
Theorem C10_symmetry_never_divides_by_zero
  (e : Engine) (stimulus : Stimulus) (current_node : Node) :
  (exists score, _calculate_bilateral_symmetry e = Returned score)
  /\ (((List.length (field_map e) < 2)%nat
       /\ _calculate_bilateral_symmetry e = Returned 0
       /\ check_necessity IntuitiveRecognizer_init e stimulus current_node
          = Returned {| jump_triggered := false;
                        nec_necessity_vector := None;
                        nec_substance_unity_score := 0;
                        nec_bypass_steps := None;
                        nec_spinozan_certainty := 0;
                        nec_field_density :=
                          Z.of_nat (List.length (field_map e)) |})
      \/ ((2 <= List.length (field_map e))%nat
          /\ 0 < total_pairs_of (List.length (field_map e)))).
Proof.
  split.
  - destruct (_calculate_bilateral_symmetry_spec e) as (s & Hs & _). eauto.
  - destruct (Nat.lt_ge_cases (List.length (field_map e)) 2) as [Hsmall|Hbig].
    + left. pose proof (_calculate_bilateral_symmetry_small e Hsmall) as Hs.
      split; [exact Hsmall|]. split; [exact Hs|].
      unfold check_necessity. rewrite Hs. simpl.
      destruct (50 <? Z.of_nat (List.length (field_map e)))%Z eqn:E.
      * apply Z.ltb_lt in E. lia.
      * reflexivity.
    + right. split; [exact Hbig|]. now apply total_pairs_of_pos.
Qed.

Lemma add_coordinates_fold (nodes : list Node) (c0 c1 : Q) (rest : list Q) :
  exists c0' c1' rest',
    fold_left (fun centroid node => add_coordinates centroid (node_coordinates node))
              nodes (c0 :: c1 :: rest)
    = c0' :: c1' :: rest'
    /\ c0' == c0 + fold_right Qplus 0
                     (map (fun c => nth 0 c 0) (map node_coordinates nodes))
    /\ c1' == c1 + fold_right Qplus 0
                     (map (fun c => nth 1 c 0) (map node_coordinates nodes)).
Proof.
  revert c0 c1 rest.
  induction nodes as [|n nodes IH]; intros c0 c1 rest.
  - exists c0, c1, rest. simpl. repeat split; lra.
  - cbn [fold_left map fold_right].
    destruct (node_coordinates n) as [|x [|y xs]]; cbn [add_coordinates nth].
    + destruct (IH c0 c1 rest) as (a & b & r & -> & Ha & Hb).
      exists a, b, r. repeat split; lra.
    + destruct (IH (c0 + x) c1 rest) as (a & b & r & -> & Ha & Hb).
      exists a, b, r. repeat split; lra.
    + destruct (IH (c0 + x) (c1 + y) (add_coordinates rest xs))
        as (a & b & r & -> & Ha & Hb).
      exists a, b, r. repeat split; lra.
Qed.

(** With at least two dimensions and a non-empty field, the substance
    vector is the centroid of the nodes along the first two axes. *)
Lemma _calculate_substance_vector_spec (e : Engine) (current_node : Node) :
  (2 <= dimension e)%nat ->
  field_map e <> [] ->
  exists cx cy,
    _calculate_substance_vector e current_node = Returned (cx, cy)
    /\ cx == Spec.centroid_along 0 (map node_coordinates (field_map e))
    /\ cy == Spec.centroid_along 1 (map node_coordinates (field_map e)).
Proof.
  intros Hdim Hne. unfold _calculate_substance_vector, Spec.centroid_along.
  destruct (field_map e) as [|n0 ns] eqn:Hmap; [contradiction|].
  cbv beta iota zeta.
  set (nodes := n0 :: ns) in *.
  destruct (Nat.min (dimension e) 18) as [|[|k]] eqn:Hmin; try lia.
  cbn [repeat].
  destruct (add_coordinates_fold nodes 0 0 (repeat 0 k))
    as (a & b & r & -> & Ha & Hb).
  assert (Hcount : ~ inject_Z (Z.of_nat (List.length nodes)) == 0).
  { apply inject_Z_nonzero. subst nodes. cbn [List.length]. lia. }
  rewrite traverse_truediv by exact Hcount.
  cbn [map bind].
  exists (a / inject_Z (Z.of_nat (List.length nodes))),
         (b / inject_Z (Z.of_nat (List.length nodes))).
  rewrite List.length_map.
  split; [reflexivity|].
  split; [rewrite Ha | rewrite Hb]; field; exact Hcount.
Qed.

(** C5. [check_necessity] returns a jump — certainty 0.98, necessity
    vector the centroid of the node coordinates along the first two axes —
    exactly when more than 50 nodes are live and the bilateral symmetry
    (the fraction of mirror pairs among all node pairs) exceeds 0.9;
    otherwise it returns no jump with certainty 0.0.  Either way the
    record carries the measured density and symmetry.  The engine's
    dimension is at least 2, as the two-component vector needs. *)
Theorem C5_check_necessity_jump_iff
  (e : Engine) (stimulus : Stimulus) (current_node : Node) :
  (2 <= dimension e)%nat ->
  exists r,
    check_necessity IntuitiveRecognizer_init e stimulus current_node = Returned r
    /\ nec_field_density r = Z.of_nat (List.length (field_map e))
    /\ nec_substance_unity_score r
       == Spec.bilateral_symmetry (map node_coordinates (field_map e))
    /\ (jump_triggered r = true <->
        (50 < Z.of_nat (List.length (field_map e)))%Z
        /\ 0.9 < Spec.bilateral_symmetry (map node_coordinates (field_map e)))
    /\ (jump_triggered r = true ->
        nec_spinozan_certainty r = 0.98
        /\ exists cx cy,
             nec_necessity_vector r = Some (cx, cy)
             /\ cx == Spec.centroid_along 0 (map node_coordinates (field_map e))
             /\ cy == Spec.centroid_along 1 (map node_coordinates (field_map e)))
    /\ (jump_triggered r = false ->
        nec_spinozan_certainty r = 0 /\ nec_necessity_vector r = None).
Proof.
  intros Hdim.
  destruct (_calculate_bilateral_symmetry_spec e) as (score & Hscore & Hspec).
  unfold check_necessity. rewrite Hscore. cbn [bind].
  cbn [IntuitiveRecognizer_init density_threshold symmetry_threshold].
  destruct (50 <? Z.of_nat (List.length (field_map e)))%Z eqn:Hdens.
  - apply Z.ltb_lt in Hdens.
    destruct (Qltb_cases 0.9 score) as [[-> Hsym] | [-> Hsym]].
    + assert (Hne : field_map e <> []).
      { intros H0. rewrite H0 in Hdens. simpl in Hdens. lia. }
      destruct (_calculate_substance_vector_spec e current_node Hdim Hne)
        as (cx & cy & -> & Hx & Hy).
      cbn [bind]. eexists. split; [reflexivity|].
      cbn [nec_field_density nec_substance_unity_score jump_triggered
           nec_spinozan_certainty nec_necessity_vector].
      split; [reflexivity|]. split; [exact Hspec|].
      split; [split; [intros _; split; [exact Hdens | lra] | reflexivity]|].
      split.
      * intros _. split; [reflexivity|]. exists cx, cy. auto.
      * intros H. discriminate H.
    + eexists. split; [reflexivity|].
      cbn [nec_field_density nec_substance_unity_score jump_triggered
           nec_spinozan_certainty nec_necessity_vector].
      split; [reflexivity|]. split; [exact Hspec|].
      split; [split; [intros H; discriminate H | intros [_ H]; lra]|].
      split; [intros H; discriminate H | intros _; split; reflexivity].
  - apply Z.ltb_ge in Hdens.
    eexists. split; [reflexivity|].
    cbn [nec_field_density nec_substance_unity_score jump_triggered
         nec_spinozan_certainty nec_necessity_vector].
    split; [reflexivity|]. split; [exact Hspec|].
    split; [split; [intros H; discriminate H | intros [H _]; lia]|].
    split; [intros H; discriminate H | intros _; split; reflexivity].
Qed.

End NecessityProperties.

(** *** Mode synthesizer *)

Section SynthesisProperties.

Context {BE : BayesianEngine} {HE : HLSFEngine}.

Lemma field_density_effective
  (e : Engine) (b : Bayes) (inductive : option Prediction)
  (intuitive : Necessity) (bayes_shadows : list (string * Q)) :
  field_density (_synthesize_logic_triad e b inductive intuitive bayes_shadows)
  = Spec.effective_density e.
Proof.
  unfold _synthesize_logic_triad.
  destruct (jump_triggered intuitive); [reflexivity|].
  cbv zeta.
  repeat match goal with
         | |- context [if ?c then _ else _] => destruct c
         end; reflexivity.
Qed.

Lemma live_le_effective (e : Engine) :
  inject_Z (Z.of_nat (List.length (field_map e))) <= inject_Z (Spec.effective_density e).
Proof.
  rewrite <- Zle_Qle. unfold Spec.effective_density. lia.
Qed.

(** The mode the rules of lines 660-679 reach from a starting mode, as a
    function of the four tests they make. *)
Lemma synthesized_mode
  (e : Engine) (b : Bayes) (inductive : option Prediction)
  (intuitive : Necessity) (bayes_shadows : list (string * Q)) :
  jump_triggered intuitive = false ->
  Qleb (purge_trigger_threshold e) (inject_Z (Spec.effective_density e)) = true ->
  active_mode (_synthesize_logic_triad e b inductive intuitive bayes_shadows)
  <> "GUARD".
Proof.
  intros Hjump Hpurge. unfold _synthesize_logic_triad. rewrite Hjump.
  cbv zeta. cbn [field_density]. fold (Spec.effective_density e). rewrite Hpurge.
  destruct inductive as [p|]; [destruct (Qltb 0.35 (pred_confidence p))|];
    cbn -[Qleb Qltb Qmult];
    destruct (Qleb (max_field_density e * 0.95) (inject_Z (Spec.effective_density e)));
    cbn -[Qleb Qltb Qmult];
    destruct (Qltb 0.55 (default 0 (calculate_posterior b "habit_continues")));
    cbn -[Qleb Qltb Qmult];
    destruct (Qltb 0.45 (default 0 (calculate_posterior b "jump_necessary")));
    cbn -[Qleb Qltb Qmult]; discriminate.
Qed.

(** C1. Whenever the field density — the live node count, or the
    density the cycle records — reaches [purge_trigger_threshold], the
    mode resolved by [_synthesize_logic_triad] is not GUARD. *)
Theorem C1_guard_never_resolved_under_density_breach
  (e : Engine) (b : Bayes) (inductive : option Prediction)
  (intuitive : Necessity) (bayes_shadows : list (string * Q)) :
  purge_trigger_threshold e <= inject_Z (Z.of_nat (List.length (field_map e)))
  \/ purge_trigger_threshold e
     <= inject_Z (field_density
                    (_synthesize_logic_triad e b inductive intuitive bayes_shadows)) ->
  active_mode (_synthesize_logic_triad e b inductive intuitive bayes_shadows)
  <> "GUARD".
Proof.
  intros H.
  assert (Hpurge : Qleb (purge_trigger_threshold e) (inject_Z (Spec.effective_density e)) = true).
  { apply Qleb_le. destruct H as [H|H].
    - pose proof (live_le_effective e). lra.
    - now rewrite field_density_effective in H. }
  destruct (jump_triggered intuitive) eqn:Hjump.
  - unfold _synthesize_logic_triad. rewrite Hjump. discriminate.
  - now apply synthesized_mode.
Qed.

(** C9. The density compared against the thresholds is
    max(live node count, last recorded breach).  So with a breach on
    record and no jump from the necessity detector, whatever the live
    count is now: a breach at or above [purge_trigger_threshold] makes the
    forcing rule fire on a cycle that starts in GUARD or GUARD-HABIT (the
    density penalty is set), and a breach at or above 0.95 of
    [max_field_density] forces INTUITION-JUMP with penalty 1.5. *)
Theorem C9_recorded_breach_keeps_forcing
  (e : Engine) (b : Bayes) (inductive : option Prediction)
  (intuitive : Necessity) (bayes_shadows : list (string * Q)) (breach : Z) :
  last_density_breach e = Some breach ->
  jump_triggered intuitive = false ->
  field_density (_synthesize_logic_triad e b inductive intuitive bayes_shadows)
  = Z.max (Z.of_nat (List.length (field_map e))) breach
  /\ (purge_trigger_threshold e <= inject_Z breach ->
      (forall p, inductive = Some p -> pred_confidence p <= 0.35) ->
      density_penalty (_synthesize_logic_triad e b inductive intuitive bayes_shadows)
      = Some (if Qleb (max_field_density e * 0.95)
                      (inject_Z (Z.max (Z.of_nat (List.length (field_map e))) breach))
              then 1.5 else 1)
      /\ active_mode (_synthesize_logic_triad e b inductive intuitive bayes_shadows)
         <> "GUARD")
  /\ (max_field_density e * 0.95 <= inject_Z breach ->
      density_penalty (_synthesize_logic_triad e b inductive intuitive bayes_shadows)
      = Some 1.5
      /\ active_mode (_synthesize_logic_triad e b inductive intuitive bayes_shadows)
         = "INTUITION-JUMP").
Proof.
  intros Hbreach Hjump.
  assert (Heff : Spec.effective_density e
                 = Z.max (Z.of_nat (List.length (field_map e))) breach).
  { unfold Spec.effective_density. now rewrite Hbreach. }
  assert (Hge : inject_Z breach <= inject_Z (Spec.effective_density e)).
  { rewrite <- Zle_Qle. lia. }
  split; [|split].
  - now rewrite field_density_effective.
  - intros Hpurge Hguard.
    assert (Hp : Qleb (purge_trigger_threshold e)
                      (inject_Z (Spec.effective_density e)) = true).
    { apply Qleb_le. lra. }
    split; [|now apply synthesized_mode].
    rewrite <- Heff.
    unfold _synthesize_logic_triad. rewrite Hjump.
    cbv zeta. cbn [field_density]. fold (Spec.effective_density e). rewrite Hp.
    destruct inductive as [p|].
    + specialize (Hguard p eq_refl). apply Qltb_ge in Hguard. rewrite Hguard.
      cbn -[Qleb Qltb Qmult].
      destruct (Qleb (max_field_density e * 0.95)
                     (inject_Z (Spec.effective_density e)));
        cbn -[Qleb Qltb Qmult];
        destruct (Qltb 0.55 (default 0 (calculate_posterior b "habit_continues")));
        cbn -[Qleb Qltb Qmult];
        destruct (Qltb 0.45 (default 0 (calculate_posterior b "jump_necessary")));
        reflexivity.
    + cbn -[Qleb Qltb Qmult].
      destruct (Qleb (max_field_density e * 0.95)
                     (inject_Z (Spec.effective_density e)));
        cbn -[Qleb Qltb Qmult];
        destruct (Qltb 0.55 (default 0 (calculate_posterior b "habit_continues")));
        cbn -[Qleb Qltb Qmult];
        destruct (Qltb 0.45 (default 0 (calculate_posterior b "jump_necessary")));
        reflexivity.
  - intros Hmax.
    assert (Hm : Qleb (max_field_density e * 0.95)
                      (inject_Z (Spec.effective_density e)) = true).
    { apply Qleb_le. lra. }
    unfold _synthesize_logic_triad. rewrite Hjump.
    cbv zeta. cbn [field_density]. fold (Spec.effective_density e).
    destruct inductive as [p|]; [destruct (Qltb 0.35 (pred_confidence p))|];
      cbn -[Qleb Qltb Qmult];
      destruct (Qleb (purge_trigger_threshold e)
                     (inject_Z (Spec.effective_density e)));
      cbn -[Qleb Qltb Qmult]; rewrite Hm; cbn -[Qleb Qltb Qmult];
      destruct (Qltb 0.45 (default 0 (calculate_posterior b "jump_necessary")));
      split; reflexivity.
Qed.

End SynthesisProperties.

(** *** Orchestrator *)

Section OrchestratorProperties.

Context {VM : VaultManager} {BE : BayesianEngine} {HE : HLSFEngine}.
Context {FT : FourMindTribunal} {SF : SpaceFieldCognition} {PL : PyLib}.

Lemma try_returned {A B S} (m : outcome A) (s : S) (k : A -> outcome B * S)
  (b : B) (s' : S) :
  try m s k = (Returned b, s') ->
  exists a, m = Returned a /\ k a = (Returned b, s').
Proof.
  destruct m as [a|exn]; simpl; intros H; [eauto | discriminate H].
Qed.

(** [perceive] touches neither the belief updater nor the tribunal. *)
Lemma perceive_frame (c : SF_ORB_Controller) (stimulus : Stimulus) (amb : Ambient) :
  bayes (snd (perceive c stimulus amb)) = bayes c
  /\ tribunal (snd (perceive c stimulus amb)) = tribunal c.
Proof.
  unfold perceive.
  destruct (record_observation _ _ _ _) as [[ht vault] obs].
  destruct (process_stimulus _ _) as [bridge stats].
  unfold try.
  destruct (update_physics _ _ _ _) as [ps|exn]; [|split; reflexivity].
  destruct (calculate_navigation_vector _ _ _ _ _ _) as [nav|exn];
    [|split; reflexivity].
  destruct (map_adjacency _ _) as [e node].
  destruct (check_necessity _ _ _ _) as [intuition|exn]; split; reflexivity.
Qed.

(** A call that returns a thought went through the three stages. *)
Lemma cognitively_emerge_emerged
  (c c' : SF_ORB_Controller) (stimulus : Stimulus) (amb : Ambient)
  (thought : CrossDomainPredicate) :
  cognitively_emerge c stimulus amb = (Returned (Some (Emerged thought)), c') ->
  exists p c1,
    perceive c stimulus amb = (Returned p, c1)
    /\ lightning_query (vaults c1) stimulus = None
    /\ synthesize c1 stimulus amb p = (Returned thought, c').
Proof.
  unfold cognitively_emerge.
  destruct (negb (_check_sovereignty stimulus)); [discriminate|].
  destruct (perceive c stimulus amb) as [[p|exn] c1]; [|discriminate].
  destruct (lightning_query (vaults c1) stimulus) as [cached|] eqn:Hquery;
    [discriminate|].
  destruct (synthesize c1 stimulus amb p) as [[t|exn] c2] eqn:Hsyn; [|discriminate].
  intros H. injection H as -> ->. exists p, c1. repeat split; assumption.
Qed.

(** What a returning [synthesize] has done. *)
Lemma synthesize_returned
  (c c' : SF_ORB_Controller) (stimulus : Stimulus) (amb : Ambient)
  (p : Perception) (thought : CrossDomainPredicate) :
  synthesize c stimulus amb p = (Returned thought, c') ->
  let shadows := snd (generate_epistemic_shadow (tribunal c) stimulus) in
  let updated := _update_bayesian_shadows (bayes c) shadows (t_bayes amb) in
  let logic :=
    _synthesize_logic_triad (engine c) (fst updated)
      (per_inductive p) (per_intuition p) (snd updated) in
  epistemic_traces thought = shadows
  /\ logic_validity thought = logic
  /\ bayes c' = _update_bayesian_outcome (fst updated) logic
  /\ exists envelope,
       _build_correlation_envelope stimulus shadows (snd updated) logic
         (confidence thought) (t_stardate amb) = Returned envelope
       /\ ucm_envelope thought = Some envelope
       /\ th_final_verdict thought = Some (final_verdict envelope)
       /\ th_final_verdict_source thought = Some (final_verdict_source envelope).
Proof.
  unfold synthesize.
  destruct (generate_epistemic_shadow (tribunal c) stimulus) as [trib shadows].
  cbn [snd bayes set_tribunal].
  destruct (_update_bayesian_shadows (bayes c) shadows (t_bayes amb))
    as [b bayes_shadows].
  cbn [fst snd bayes engine set_bayes set_tribunal].
  destruct (get_recursive_neighbors (engine c) (per_node p) 3) as [e neighbors].
  intros H.
  apply try_returned in H as (envelope & Henv & H).
  apply try_returned in H as (predicate & Hpulse & H).
  injection H as <- <-.
  cbn [epistemic_traces logic_validity ucm_envelope th_final_verdict
       th_final_verdict_source confidence bayes set_vaults set_bayes set_engine].
  repeat split. exists envelope. repeat split. exact Henv.
Qed.

(** C3. A surveillance probe whose metadata does not set [test_mode] to
    [True] makes [cognitively_emerge] return [None] and leaves the whole
    controller — ring buffer, pattern counts and belief updater included —
    as it was. *)
Theorem C3_surveillance_probe_rejected
  (c : SF_ORB_Controller) (stimulus : Stimulus) (amb : Ambient) :
  stim_type stimulus = Some "surveillance_probe" ->
  stim_test_mode stimulus <> Some (VBool true) ->
  cognitively_emerge c stimulus amb = (Returned None, c)
  /\ sequence_buffer (habit_tracker (snd (cognitively_emerge c stimulus amb)))
     = sequence_buffer (habit_tracker c)
  /\ pattern_cache (habit_tracker (snd (cognitively_emerge c stimulus amb)))
     = pattern_cache (habit_tracker c)
  /\ bayes (snd (cognitively_emerge c stimulus amb)) = bayes c.
Proof.
  intros Htype Hmeta.
  assert (H : cognitively_emerge c stimulus amb = (Returned None, c)).
  { unfold cognitively_emerge, _check_sovereignty.
    assert (Hflag : is_True (stim_test_mode stimulus) = false).
    { destruct (stim_test_mode stimulus) as [[| [|] | |]|];
        try reflexivity. contradiction. }
    rewrite Hflag, Htype. reflexivity. }
  rewrite H. repeat split.
Qed.

(** C6. When the perception stage has returned and the vault answers the
    lightning query with a cached result, [cognitively_emerge] returns
    that result as it is, and the controller is the one the query was made
    on: no shadow was generated (the tribunal is untouched), no evidence
    or outcome reached the belief updater, and nothing was crystallized
    after the query. *)
Theorem C6_lightning_bypass_returns_cached
  (c c1 : SF_ORB_Controller) (stimulus : Stimulus) (amb : Ambient)
  (p : Perception) (cached : Cached) :
  _check_sovereignty stimulus = true ->
  perceive c stimulus amb = (Returned p, c1) ->
  lightning_query (vaults c1) stimulus = Some cached ->
  cognitively_emerge c stimulus amb = (Returned (Some (Bypass cached)), c1)
  /\ vaults (snd (cognitively_emerge c stimulus amb)) = vaults c1
  /\ tribunal (snd (cognitively_emerge c stimulus amb)) = tribunal c
  /\ bayes (snd (cognitively_emerge c stimulus amb)) = bayes c.
Proof.
  intros Hsov Hper Hquery.
  assert (H : cognitively_emerge c stimulus amb
              = (Returned (Some (Bypass cached)), c1)).
  { unfold cognitively_emerge. rewrite Hsov, Hper, Hquery. reflexivity. }
  rewrite H. cbn [snd].
  pose proof (perceive_frame c stimulus amb) as [Hb Ht].
  rewrite Hper in Hb, Ht. cbn [snd] in Hb, Ht.
  repeat split; assumption.
Qed.

(** C7. A cycle that returns a thought ends with exactly three outcome
    updates on the belief state left by the shadow evidence, one per named
    hypothesis and in this order: [habit_continues] (weight 0.7),
    succeeding iff the mode is HABIT or GUARD-HABIT and the inductive
    prediction's confidence exceeds 0.4; [jump_necessary] (weight 0.6),
    succeeding iff the mode is INTUITION-JUMP and the jump was triggered;
    [guard_sufficient] (weight 0.5), succeeding iff the mode is GUARD and
    neither of the other two succeeded. *)
Theorem C7_outcome_feedback_after_full_cycle
  (c c' : SF_ORB_Controller) (stimulus : Stimulus) (amb : Ambient)
  (thought : CrossDomainPredicate) :
  cognitively_emerge c stimulus amb = (Returned (Some (Emerged thought)), c') ->
  exists habit_ok jump_ok guard_ok : bool,
    bayes c'
    = update_with_outcome
        (update_with_outcome
           (update_with_outcome
              (fst (_update_bayesian_shadows (bayes c) (epistemic_traces thought)
                      (t_bayes amb)))
              "habit_continues" habit_ok 0.7)
           "jump_necessary" jump_ok 0.6)
        "guard_sufficient" guard_ok 0.5
    /\ (habit_ok = true <->
        (active_mode (logic_validity thought) = "HABIT"
         \/ active_mode (logic_validity thought) = "GUARD-HABIT")
        /\ exists prediction,
             inductive_prediction (logic_validity thought) = Some prediction
             /\ 0.4 < pred_confidence prediction)
    /\ (jump_ok = true <->
        active_mode (logic_validity thought) = "INTUITION-JUMP"
        /\ intuitive_jump_triggered (logic_validity thought) = Some true)
    /\ (guard_ok = true <->
        active_mode (logic_validity thought) = "GUARD"
        /\ habit_ok = false /\ jump_ok = false).
Proof.
  intros H.
  apply cognitively_emerge_emerged in H as (p & c1 & Hper & _ & Hsyn).
  pose proof (perceive_frame c stimulus amb) as [Hb _].
  rewrite Hper in Hb. cbn [snd] in Hb.
  apply synthesize_returned in Hsyn as (Htraces & Hlogic & Hbayes & _).
  rewrite <- Hlogic in Hbayes. rewrite <- Htraces, Hb in Hbayes.
  exists (habit_success (logic_validity thought)),
         (jump_success (logic_validity thought)),
         (guard_success (logic_validity thought)).
  split; [exact Hbayes|].
  unfold guard_success, jump_success, habit_success.
  set (logic := logic_validity thought).
  split; [|split].
  - rewrite andb_true_iff, orb_true_iff, !bool_decide_eq_true.
    destruct (inductive_prediction logic) as [pr|]; simpl option_map; simpl default.
    + rewrite Qltb_lt. split.
      * intros [Hm Hc]. split; [exact Hm|]. eauto.
      * intros [Hm (pr' & Heq & Hc)]. injection Heq as <-. auto.
    + split.
      * intros [_ Hc]. apply Qltb_lt in Hc. lra.
      * intros [_ (pr' & Heq & _)]. discriminate Heq.
  - rewrite andb_true_iff, bool_decide_eq_true.
    destruct (intuitive_jump_triggered logic) as [[|]|]; unfold truthy_flag; simpl;
      split; intros [Hm Hj]; split; congruence.
  - rewrite !andb_true_iff, !negb_true_iff, bool_decide_eq_true. tauto.
Qed.

Lemma _verdict_from_mode_table (mode : string) :
  Spec.verdict_table mode (_verdict_from_mode mode).
Proof.
  unfold _verdict_from_mode.
  repeat case_bool_decide; subst; try constructor; assumption.
Qed.

Lemma traverse_keys (f : string * Q -> outcome Q) (ws r : list (string * Q)) :
  traverse (fun kv => do w <- f kv; Returned (fst kv, w)) ws = Returned r ->
  map fst r = map fst ws.
Proof.
  revert r. induction ws as [|kv ws IH]; intros r; cbn [traverse].
  - intros H. injection H as <-. reflexivity.
  - destruct (f kv) as [w|exn]; cbn [bind]; [|discriminate].
    destruct (traverse _ ws) as [r'|exn]; cbn [bind]; [|discriminate].
    intros H. injection H as <-. cbn [map fst]. now rewrite (IH r').
Qed.

Lemma _build_correlation_envelope_verdicts
  (stimulus : Stimulus) (shadows : Shadows) (bayes_shadows : list (string * Q))
  (logic_state : LogicState) (conf now : Q) (envelope : Envelope) :
  _build_correlation_envelope stimulus shadows bayes_shadows logic_state conf now
  = Returned envelope ->
  final_verdict envelope = _verdict_from_mode (active_mode logic_state)
  /\ final_verdict_source envelope = deliberation_path
  /\ advisory_verdict (caleon (core_4 envelope)) = final_verdict envelope
  /\ advisory_verdict (kaygee (core_4 envelope)) = final_verdict envelope
  /\ advisory_verdict (cali_x_one (core_4 envelope)) = final_verdict envelope
  /\ map fst (ecm_inputs (ecm (core_4 envelope)))
     = ["locke"; "hume"; "kant"; "spinoza"]
  /\ map fst (convergence_weights (ecm (core_4 envelope)))
     = ["caleon"; "kaygee"; "cali_x_one"; "empirical"].
Proof.
  unfold _build_correlation_envelope, _build_core_4_returns.
  destruct (_normalize_weights _) as [weights|exn] eqn:Hw; [|discriminate].
  apply traverse_keys in Hw.
  cbn [bind].
  destruct (_build_advisory_plus_one _) as [adv|exn]; [|discriminate].
  cbn [bind]. intros H. injection H as <-.
  cbn [final_verdict final_verdict_source core_4 caleon kaygee cali_x_one ecm
       advisory_verdict ecm_inputs convergence_weights].
  repeat split. exact Hw.
Qed.

(** C8. In the envelope of a cycle that returns a thought, [final_verdict]
    is the mode-to-verdict table applied to the resolved mode
    (INTUITION-JUMP to escalate, HABIT to act, GUARD-HABIT to monitor,
    anything else to no_act), every per-perspective [advisory_verdict]
    is that same value, and [final_verdict_source] is the fixed
    deliberation-path string, which is none of the perspective names. *)
Theorem C8_final_verdict_from_mode_table
  (c c' : SF_ORB_Controller) (stimulus : Stimulus) (amb : Ambient)
  (thought : CrossDomainPredicate) :
  cognitively_emerge c stimulus amb = (Returned (Some (Emerged thought)), c') ->
  exists envelope,
    ucm_envelope thought = Some envelope
    /\ Spec.verdict_table (active_mode (logic_validity thought))
                          (final_verdict envelope)
    /\ Forall (fun entry => advisory_verdict (snd entry) = final_verdict envelope)
              (perspective_entries envelope)
    /\ final_verdict_source envelope
       = "UCM Core-4 deliberation (ECM advisory only)"
    /\ ~ In (final_verdict_source envelope)
            (map fst (perspective_entries envelope)
             ++ "ecm" :: map fst (ecm_inputs (ecm (core_4 envelope)))
             ++ map fst (convergence_weights (ecm (core_4 envelope))))%list
    /\ th_final_verdict thought = Some (final_verdict envelope)
    /\ th_final_verdict_source thought = Some (final_verdict_source envelope).
Proof.
  intros H.
  apply cognitively_emerge_emerged in H as (p & c1 & _ & _ & Hsyn).
  apply synthesize_returned in Hsyn
    as (_ & Hlogic & _ & envelope & Henv & Hucm & Hverdict & Hsource).
  apply _build_correlation_envelope_verdicts in Henv
    as (Hfinal & Hpath & Hcaleon & Hkaygee & Hcali & Hinputs & Hweights).
  exists envelope.
  split; [exact Hucm|].
  split; [rewrite Hfinal, Hlogic; apply _verdict_from_mode_table|].
  split; [unfold perspective_entries; repeat constructor; assumption|].
  split; [exact Hpath|].
  split; [|split; assumption].
  rewrite Hpath, Hinputs, Hweights. unfold perspective_entries, deliberation_path.
  cbn [map fst app In].
  intros Hin.
  repeat (destruct Hin as [Hin|Hin]; [discriminate Hin|]).
  exact Hin.
Qed.

End OrchestratorProperties.

(** *** Pattern memory *)

Section PatternMemoryProperties.

Context {VM : VaultManager}.

(** What a cursor observation persists once the buffer holds three or
    more: the record is keyed by the serialization of the whole buffer,
    with the frequency derived from that key's count. *)
Lemma record_observation_persists
  (ht : HabitTracker) (v : Vault) (stimulus : Stimulus) (now : Q) :
  stim_type stimulus = Some "cursor_movement" ->
  (3 <= List.length (sequence_buffer (fst (fst (record_observation ht v stimulus now)))))%nat ->
  exists key count,
    key = _serialize_pattern
            (sequence_buffer (fst (fst (record_observation ht v stimulus now))))
    /\ pattern_cache (fst (fst (record_observation ht v stimulus now))) !! key
       = Some count
    /\ count = (default 0%Z (pattern_cache ht !! key) + 1)%Z
    /\ snd (fst (record_observation ht v stimulus now))
       = crystallize v (KeyString ("habit_" ++ key))
           (HabitValue
              {| hr_pattern := Some key;
                 hr_frequency := Some (Py.min (inject_Z count / 10) 1);
                 hr_predicted_next := Some (_extrapolate_next_quadrant key);
                 hr_temporal_decay := Some 0.95 |}).
Proof.
  intros Htype. unfold record_observation. rewrite Htype.
  rewrite bool_decide_eq_true_2 by reflexivity. cbn [negb].
  set (obs := {| obs_quadrant := _; obs_coords := _; obs_velocity := _;
                 obs_timestamp := _ |}).
  set (buffer := deque_append 5 (sequence_buffer ht) obs).
  destruct (3 <=? List.length buffer)%nat eqn:Hlen.
  - intros _. unfold _update_conjunction_frequency.
    cbn [fst snd sequence_buffer pattern_cache].
    set (key := _serialize_pattern buffer).
    eexists key, _. split; [reflexivity|].
    split; [apply lookup_insert_eq|].
    split; [|reflexivity].
    destruct (pattern_cache ht !! key) as [n|] eqn:Hk.
    + now rewrite Hk.
    + now rewrite lookup_insert_eq.
  - cbn [fst snd sequence_buffer]. intros H.
    apply Nat.leb_gt in Hlen. lia.
Qed.

(** C2 (as the code has it). On the fourth observation of a run in the
    NW quadrant the record is persisted under the four-label key
    ["NW_NW_NW_NW"], with the frequency of that key's count, whereas the
    pattern key of the buffer — the labels of its last three
    observations, which [predict_next] looks up — is ["NW_NW_NW"]. *)
Theorem C2_fourth_observation_keyed_by_whole_buffer (v : Vault) :
  snd (fst (record_observation Sample.tracker_after_three v
              (Sample.cursor_at 100 200) 4))
  = crystallize v (KeyString "habit_NW_NW_NW_NW")
      (HabitValue
         {| hr_pattern := Some "NW_NW_NW_NW";
            hr_frequency := Some 0.1;
            hr_predicted_next := Some "NW";
            hr_temporal_decay := Some 0.95 |})
  /\ Spec.pattern_key
       (sequence_buffer
          (fst (fst (record_observation Sample.tracker_after_three v
                       (Sample.cursor_at 100 200) 4))))
     = "NW_NW_NW"
  /\ _serialize_pattern
       (last_n 3
          (sequence_buffer
             (fst (fst (record_observation Sample.tracker_after_three v
                          (Sample.cursor_at 100 200) 4)))))
     = "NW_NW_NW"
  /\ pattern_cache
       (fst (fst (record_observation Sample.tracker_after_three v
                    (Sample.cursor_at 100 200) 4))) !! "NW_NW_NW"
     = Some 1%Z.
Proof.
  repeat split; vm_compute; reflexivity.
Qed.

End PatternMemoryProperties.

(** ** The properties on the sample collaborators *)

Module Witness.

Import Sample.

(** C1 on the emptied field: one live node, a recorded breach of 120
    against a purge threshold of 100. *)
Lemma C1_breached_engine :
  (purge_trigger_threshold (HLSFEngine := hlsf) breached_engine
   <= inject_Z (Z.of_nat (List.length (field_map (HLSFEngine := hlsf) breached_engine)))
   \/ purge_trigger_threshold (HLSFEngine := hlsf) breached_engine
      <= inject_Z (field_density
                     (_synthesize_logic_triad (BE := bayes_engine) (HE := hlsf)
                        breached_engine [] None no_jump [])))
  /\ active_mode
       (_synthesize_logic_triad (BE := bayes_engine) (HE := hlsf)
          breached_engine [] None no_jump [])
     <> "GUARD".
Proof.
  assert (H : purge_trigger_threshold (HLSFEngine := hlsf) breached_engine
              <= inject_Z (field_density
                             (_synthesize_logic_triad (BE := bayes_engine) (HE := hlsf)
                                breached_engine [] None no_jump []))).
  { vm_compute. discriminate. }
  split.
  - right. exact H.
  - apply (C1_guard_never_resolved_under_density_breach
             (BE := bayes_engine) (HE := hlsf) breached_engine [] None no_jump []).
    right. exact H.
Defined.

(** C3 on the sample probe. *)
Lemma C3_probe :
  stim_type probe = Some "surveillance_probe"
  /\ stim_test_mode probe <> Some (VBool true)
  /\ run quiet_engine probe = (Returned None, controller quiet_engine).
Proof.
  assert (H1 : stim_type probe = Some "surveillance_probe") by reflexivity.
  assert (H2 : stim_test_mode probe <> Some (VBool true)) by discriminate.
  split; [exact H1|]. split; [exact H2|].
  exact (proj1 (C3_surveillance_probe_rejected
                  (VM := vault) (BE := bayes_engine) (HE := hlsf)
                  (FT := tribunal_of_four) (SF := space_field) (PL := pylib)
                  (controller quiet_engine) probe ambient H1 H2)).
Defined.

(** C5 on the field of 51 coincident nodes. *)
Lemma C5_dense_engine :
  (2 <= dimension (HLSFEngine := hlsf) dense_engine)%nat
  /\ exists r,
       check_necessity (HE := hlsf) IntuitiveRecognizer_init dense_engine
         probe (node_at []) = Returned r
       /\ jump_triggered r = true
       /\ nec_spinozan_certainty r = 0.98.
Proof.
  assert (H : (2 <= dimension (HLSFEngine := hlsf) dense_engine)%nat)
    by (vm_compute; lia).
  split; [exact H|].
  destruct (C5_check_necessity_jump_iff (HE := hlsf) dense_engine probe
              (node_at []) H)
    as (r & Hr & _ & _ & _ & Hjump & _).
  assert (Hj : jump_triggered r = true).
  { vm_compute in Hr. injection Hr as <-. reflexivity. }
  exists r. split; [exact Hr|]. split; [exact Hj|].
  exact (proj1 (Hjump Hj)).
Defined.

(** C6 on the warmed-up controller: the second cycle on the same kind of
    stimulus is answered from the vault. *)
Lemma C6_second_cycle_bypassed :
  exists p c1 cached,
    _check_sovereignty (cursor_at 100 200) = true
    /\ perceive (VM := vault) (BE := bayes_engine) (HE := hlsf)
         (FT := tribunal_of_four) (SF := space_field) (PL := pylib)
         warm_controller (cursor_at 100 200) ambient = (Returned p, c1)
    /\ lightning_query (VaultManager := vault) (vaults c1) (cursor_at 100 200)
       = Some cached
    /\ cognitively_emerge (VM := vault) (BE := bayes_engine) (HE := hlsf)
         (FT := tribunal_of_four) (SF := space_field) (PL := pylib)
         warm_controller (cursor_at 100 200) ambient
       = (Returned (Some (Bypass cached)), c1)
    /\ bayes c1 = bayes warm_controller.
Proof.
  destruct (perceive (VM := vault) (BE := bayes_engine) (HE := hlsf)
              (FT := tribunal_of_four) (SF := space_field) (PL := pylib)
              warm_controller (cursor_at 100 200) ambient)
    as [[p|exn] c1] eqn:Hper;
    [|vm_compute in Hper; discriminate Hper].
  destruct (lightning_query (VaultManager := vault) (vaults c1) (cursor_at 100 200))
    as [cached|] eqn:Hquery.
  - assert (Hsov : _check_sovereignty (cursor_at 100 200) = true) by reflexivity.
    exists p, c1, cached.
    split; [exact Hsov|]. split; [reflexivity|]. split; [exact Hquery|].
    destruct (C6_lightning_bypass_returns_cached
                (VM := vault) (BE := bayes_engine) (HE := hlsf)
                (FT := tribunal_of_four) (SF := space_field) (PL := pylib)
                warm_controller c1 (cursor_at 100 200) ambient p cached
                Hsov Hper Hquery)
      as (Hrun & _ & _ & Hbayes).
    split; [exact Hrun|].
    rewrite Hrun in Hbayes. exact Hbayes.
  - exfalso. vm_compute in Hper. injection Hper as <- <-.
    vm_compute in Hquery. discriminate Hquery.
Defined.

(** The first cycle of the sample controller, a full one. *)
Local Abbreviation first_cycle :=
  (cognitively_emerge (VM := vault) (BE := bayes_engine) (HE := hlsf)
     (FT := tribunal_of_four) (SF := space_field) (PL := pylib)
     (controller quiet_engine) (cursor_at 100 200) ambient).

(** C7 on the first cycle: the recorder holds the three outcome calls,
    in order, after the shadow evidence. *)
Lemma C7_first_cycle :
  exists thought c',
    first_cycle = (Returned (Some (Emerged thought)), c')
    /\ exists habit_ok jump_ok guard_ok,
         bayes c'
         = (fst (_update_bayesian_shadows (BE := bayes_engine) (PL := pylib)
                   (bayes (controller quiet_engine)) (epistemic_traces thought)
                   (t_bayes ambient))
            ++ [UpdateWithOutcome "habit_continues" habit_ok 0.7;
                UpdateWithOutcome "jump_necessary" jump_ok 0.6;
                UpdateWithOutcome "guard_sufficient" guard_ok 0.5])%list.
Proof.
  assert (Hrun : exists thought c',
             first_cycle
             = (Returned (Some (Emerged thought)), c')).
  { vm_compute. eexists. eexists. reflexivity. }
  destruct Hrun as (thought & c' & Hrun).
  exists thought, c'. split; [exact Hrun|].
  destruct (C7_outcome_feedback_after_full_cycle
              (VM := vault) (BE := bayes_engine) (HE := hlsf)
              (FT := tribunal_of_four) (SF := space_field) (PL := pylib)
              (controller quiet_engine) c' (cursor_at 100 200) ambient thought Hrun)
    as (habit_ok & jump_ok & guard_ok & Hbayes & _).
  exists habit_ok, jump_ok, guard_ok.
  rewrite Hbayes. cbn [update_with_outcome bayes_engine].
  rewrite <- !List.app_assoc. reflexivity.
Defined.

(** C8 on the first cycle. *)
Lemma C8_first_cycle :
  exists thought c',
    first_cycle = (Returned (Some (Emerged thought)), c')
    /\ exists envelope,
         ucm_envelope thought = Some envelope
         /\ Spec.verdict_table (active_mode (logic_validity thought))
                               (final_verdict envelope)
         /\ advisory_verdict (caleon (core_4 envelope)) = final_verdict envelope
         /\ final_verdict_source envelope
            = "UCM Core-4 deliberation (ECM advisory only)".
Proof.
  assert (Hrun : exists thought c',
             first_cycle
             = (Returned (Some (Emerged thought)), c')).
  { vm_compute. eexists. eexists. reflexivity. }
  destruct Hrun as (thought & c' & Hrun).
  exists thought, c'. split; [exact Hrun|].
  destruct (C8_final_verdict_from_mode_table
              (VM := vault) (BE := bayes_engine) (HE := hlsf)
              (FT := tribunal_of_four) (SF := space_field) (PL := pylib)
              (controller quiet_engine) c' (cursor_at 100 200) ambient thought Hrun)
    as (envelope & Hucm & Htable & Hall & Hsource & _).
  exists envelope. split; [exact Hucm|]. split; [exact Htable|].
  split; [|exact Hsource].
  unfold perspective_entries in Hall.
  exact (Forall_inv Hall).
Defined.

(** C9 on the emptied field: the breach of 120 keeps the forcing rule
    firing although one node is live. *)
Lemma C9_breached_engine :
  last_density_breach (HLSFEngine := hlsf) breached_engine = Some 120%Z
  /\ jump_triggered no_jump = false
  /\ field_density
       (_synthesize_logic_triad (BE := bayes_engine) (HE := hlsf)
          breached_engine [] None no_jump [])
     = 120%Z
  /\ density_penalty
       (_synthesize_logic_triad (BE := bayes_engine) (HE := hlsf)
          breached_engine [] None no_jump [])
     = Some 1.
Proof.
  assert (H1 : last_density_breach (HLSFEngine := hlsf) breached_engine = Some 120%Z)
    by reflexivity.
  assert (H2 : jump_triggered no_jump = false) by reflexivity.
  split; [exact H1|]. split; [exact H2|].
  destruct (C9_recorded_breach_keeps_forcing (BE := bayes_engine) (HE := hlsf)
              breached_engine [] None no_jump [] 120%Z H1 H2)
    as (Hdensity & Hpurge & _).
  split; [exact Hdensity|].
  assert (Hp : purge_trigger_threshold (HLSFEngine := hlsf) breached_engine
               <= inject_Z 120) by (vm_compute; discriminate).
  assert (Hg : forall p : Prediction, None = Some p -> pred_confidence p <= 0.35)
    by (intros p Hp'; discriminate Hp').
  exact (proj1 (Hpurge Hp Hg)).
Defined.

End Witness.

(** ** Further properties of the code *)

(** *** Pattern memory: quadrants, ring buffer, counts *)

(** X1. The quadrant of a point is decided by the midpoint split of the
    1920x1080 frame: west iff x < 960, north iff y < 540. *)
Theorem X1_coords_to_quadrant_cases (x y : Q) :
  (_coords_to_quadrant (x, y) = "NW" <-> x < 960 /\ y < 540)
  /\ (_coords_to_quadrant (x, y) = "NE" <-> 960 <= x /\ y < 540)
  /\ (_coords_to_quadrant (x, y) = "SW" <-> x < 960 /\ 540 <= y)
  /\ (_coords_to_quadrant (x, y) = "SE" <-> 960 <= x /\ 540 <= y).
Proof.
  unfold _coords_to_quadrant.
  assert (Hgx : 1920 / 2 == 960) by reflexivity.
  assert (Hgy : 1080 / 2 == 540) by reflexivity.
  destruct (Qltb_cases x (1920 / 2)) as [[-> Hx] | [-> Hx]];
    destruct (Qltb_cases y (1080 / 2)) as [[-> Hy] | [-> Hy]];
    rewrite Hgx in Hx; rewrite Hgy in Hy;
    cbn [Nat.mul Nat.add nth];
    repeat match goal with
           | |- _ /\ _ => split
           | |- _ <-> _ => split
           end;
    intros H; try discriminate H; try reflexivity;
    try (split; lra); exfalso; destruct H; lra.
Qed.

Lemma _coords_to_quadrant_label (coords : Q * Q) :
  In (_coords_to_quadrant coords) ["NW"; "NE"; "SW"; "SE"].
Proof.
  destruct coords as [x y]. unfold _coords_to_quadrant.
  destruct (Qltb x (1920 / 2)), (Qltb y (1080 / 2)); cbn; auto.
Qed.

Section PatternMemoryExtras.

Context {VM : VaultManager}.

(** X2. A stimulus that is not a cursor movement is not observed: the
    tracker and the vault are returned as they were, with no observation. *)
Theorem X2_record_observation_ignores_other_stimuli
  (ht : HabitTracker) (v : Vault) (stimulus : Stimulus) (now : Q) :
  stim_type stimulus <> Some "cursor_movement" ->
  record_observation ht v stimulus now = (ht, v, None).
Proof.
  intros Htype. unfold record_observation.
  rewrite bool_decide_eq_false_2 by exact Htype. reflexivity.
Qed.

Lemma record_observation_buffer
  (ht : HabitTracker) (v : Vault) (stimulus : Stimulus) (now : Q) :
  stim_type stimulus = Some "cursor_movement" ->
  sequence_buffer (fst (fst (record_observation ht v stimulus now)))
  = deque_append 5 (sequence_buffer ht)
      {| obs_quadrant := _coords_to_quadrant (default (0, 0) (stim_coordinates stimulus));
         obs_coords := default (0, 0) (stim_coordinates stimulus);
         obs_velocity := default 0 (stim_velocity stimulus);
         obs_timestamp := now |}
  /\ snd (record_observation ht v stimulus now)
     = Some {| obs_quadrant :=
                 _coords_to_quadrant (default (0, 0) (stim_coordinates stimulus));
               obs_coords := default (0, 0) (stim_coordinates stimulus);
               obs_velocity := default 0 (stim_velocity stimulus);
               obs_timestamp := now |}.
Proof.
  intros Htype. unfold record_observation. rewrite Htype.
  rewrite bool_decide_eq_true_2 by reflexivity. cbn [negb].
  destruct (3 <=? _)%nat; split; reflexivity.
Qed.

Lemma deque_append_last_n {A} (d : list A) (x : A) :
  (List.length d <= 5)%nat ->
  deque_append 5 d x = last_n 5 (d ++ [x])
  /\ List.length (deque_append 5 d x) = Nat.min 5 (S (List.length d)).
Proof.
  intros Hlen. unfold deque_append, last_n.
  rewrite List.length_app. cbn [List.length].
  destruct (5 <=? List.length d)%nat eqn:E.
  - apply Nat.leb_le in E.
    assert (Hd : List.length d = 5%nat) by lia.
    destruct d as [|a d]; [discriminate Hd|].
    rewrite Hd. cbn [tl]. split; [reflexivity|].
    rewrite List.length_app. cbn [List.length] in *. lia.
  - apply Nat.leb_gt in E.
    replace (List.length d + 1 - 5)%nat with 0%nat by lia.
    split; [reflexivity|].
    rewrite List.length_app. cbn [List.length]. lia.
Qed.

(** X3. The ring buffer keeps the five most recent observations: after a
    cursor movement is recorded on a buffer of at most five, the buffer is
    the last five of the old ones followed by the new observation — so
    its length is min(5, old length + 1), never more than five — and the
    new observation carries the stimulus' coordinates and their quadrant. *)
Theorem X3_ring_buffer_keeps_last_five
  (ht : HabitTracker) (v : Vault) (stimulus : Stimulus) (now : Q) :
  stim_type stimulus = Some "cursor_movement" ->
  (List.length (sequence_buffer ht) <= 5)%nat ->
  exists observation,
    snd (record_observation ht v stimulus now) = Some observation
    /\ obs_coords observation = default (0, 0) (stim_coordinates stimulus)
    /\ obs_quadrant observation = _coords_to_quadrant (obs_coords observation)
    /\ sequence_buffer (fst (fst (record_observation ht v stimulus now)))
       = last_n 5 (sequence_buffer ht ++ [observation])
    /\ List.length (sequence_buffer (fst (fst (record_observation ht v stimulus now))))
       = Nat.min 5 (S (List.length (sequence_buffer ht)))
    /\ (List.length (sequence_buffer (fst (fst (record_observation ht v stimulus now))))
        <= 5)%nat.
Proof.
  intros Htype Hlen.
  destruct (record_observation_buffer ht v stimulus now Htype) as [Hbuf Hobs].
  eexists. split; [exact Hobs|].
  cbn [obs_coords obs_quadrant].
  split; [reflexivity|]. split; [reflexivity|].
  rewrite Hbuf.
  destruct (deque_append_last_n (sequence_buffer ht)
              {| obs_quadrant :=
                   _coords_to_quadrant (default (0, 0) (stim_coordinates stimulus));
                 obs_coords := default (0, 0) (stim_coordinates stimulus);
                 obs_velocity := default 0 (stim_velocity stimulus);
                 obs_timestamp := now |} Hlen) as [Hlast Hmin].
  split; [exact Hlast|]. split; [exact Hmin|]. rewrite Hmin. lia.
Qed.

(** The count of a pattern, 0 when it was never seen. *)
Lemma record_observation_cache
  (ht : HabitTracker) (v : Vault) (stimulus : Stimulus) (now : Q) :
  pattern_cache (fst (fst (record_observation ht v stimulus now)))
  = if bool_decide (stim_type stimulus = Some "cursor_movement")
       && (3 <=? List.length
                   (sequence_buffer (fst (fst (record_observation ht v stimulus now)))))%nat
    then <[_serialize_pattern
             (sequence_buffer (fst (fst (record_observation ht v stimulus now))))
           := (default 0%Z
                 (pattern_cache ht
                  !! _serialize_pattern
                       (sequence_buffer
                          (fst (fst (record_observation ht v stimulus now))))) + 1)%Z]>
           (pattern_cache ht)
    else pattern_cache ht.
Proof.
  unfold record_observation.
  destruct (bool_decide (stim_type stimulus = Some "cursor_movement"));
    cbn [negb andb]; [|reflexivity].
  set (obs := {| obs_quadrant := _; obs_coords := _; obs_velocity := _;
                 obs_timestamp := _ |}).
  set (buffer := deque_append 5 (sequence_buffer ht) obs).
  destruct (3 <=? List.length buffer)%nat eqn:Hlen.
  - unfold _update_conjunction_frequency.
    cbn [fst snd sequence_buffer pattern_cache]. rewrite Hlen.
    set (key := _serialize_pattern buffer).
    destruct (pattern_cache ht !! key) as [n|] eqn:Hk.
    + rewrite Hk. reflexivity.
    + rewrite lookup_insert_eq. cbn [default]. rewrite insert_insert_eq.
      reflexivity.
  - cbn [fst snd sequence_buffer pattern_cache]. rewrite Hlen. reflexivity.
Qed.

(** X4. Recording an observation changes the occurrence counts in one
    place only: the count of the serialized buffer grows by one when the
    stimulus is a cursor movement and the buffer holds at least three
    observations; every other count, and every count otherwise, stays. *)
Theorem X4_only_the_current_pattern_is_counted
  (ht : HabitTracker) (v : Vault) (stimulus : Stimulus) (now : Q) (k : string) :
  default 0%Z (pattern_cache (fst (fst (record_observation ht v stimulus now))) !! k)
  = (default 0%Z (pattern_cache ht !! k)
     + if bool_decide (stim_type stimulus = Some "cursor_movement")
          && (3 <=? List.length
                      (sequence_buffer
                         (fst (fst (record_observation ht v stimulus now)))))%nat
          && bool_decide
               (k = _serialize_pattern
                      (sequence_buffer
                         (fst (fst (record_observation ht v stimulus now)))))
       then 1 else 0)%Z.
Proof.
  rewrite record_observation_cache.
  destruct (bool_decide (stim_type stimulus = Some "cursor_movement")
            && (3 <=? _)%nat); cbn [andb]; [|lia].
  case_bool_decide as Hk.
  - subst k. rewrite lookup_insert_eq. reflexivity.
  - rewrite lookup_insert_ne by congruence. lia.
Qed.

(** X5. [predict_next] answers [None] exactly while fewer than three
    observations are buffered; any prediction it makes is either the
    fixed UNSURE default (confidence 0.3, vivacity 0.4) or a
    QUADRANT_TRANSITION whose vivacity is at most 1. *)
Theorem X5_predict_next_none_iff_short_buffer (ht : HabitTracker) (v : Vault) :
  (predict_next ht v = None <-> (List.length (sequence_buffer ht) < 3)%nat)
  /\ forall p, predict_next ht v = Some p ->
       p = unsure_prediction
       \/ (prediction_type p = "QUADRANT_TRANSITION"
           /\ pred_hume_vivacity p <= 1
           /\ pred_hume_vivacity p <= pred_confidence p * 1.2).
Proof.
  unfold predict_next.
  destruct (List.length (sequence_buffer ht) <? 3)%nat eqn:Hlen.
  - apply Nat.ltb_lt in Hlen. split; [tauto|]. intros p H. discriminate H.
  - apply Nat.ltb_ge in Hlen. split.
    + split; [|lia].
      destruct (posteriori_cache_get _ _) as [cached|];
        [destruct (HabitRecord_truthy cached)|]; discriminate.
    + intros p.
      destruct (posteriori_cache_get _ _) as [cached|];
        [destruct (HabitRecord_truthy cached)|];
        intros H; injection H as <-; auto.
      right. cbn [prediction_type pred_hume_vivacity pred_confidence].
      split; [reflexivity|]. split; [apply pymin_le_r | apply pymin_le_l].
Qed.

End PatternMemoryExtras.

(** *** Pattern memory: keys, predictions, heat *)

Lemma split_label_cons (w rest : string) :
  In w ["NW"; "NE"; "SW"; "SE"] ->
  Py.split "_" (w ++ "_" ++ rest) = w :: Py.split "_" rest.
Proof.
  intros [<- | [<- | [<- | [<- | []]]]]; reflexivity.
Qed.

Lemma split_label_alone (w : string) :
  In w ["NW"; "NE"; "SW"; "SE"] -> Py.split "_" w = [w].
Proof.
  intros [<- | [<- | [<- | [<- | []]]]]; reflexivity.
Qed.

Lemma split_join_labels (ws : list string) :
  ws <> [] ->
  Forall (fun w => In w ["NW"; "NE"; "SW"; "SE"]) ws ->
  Py.split "_" (join "_" ws) = ws.
Proof.
  induction ws as [|w ws IH]; intros Hne Hall; [contradiction|].
  inversion Hall as [|? ? Hw Hws]; subst.
  destruct ws as [|w' ws].
  - cbn [join]. now apply split_label_alone.
  - change (join "_" (w :: w' :: ws)) with (w ++ "_" ++ join "_" (w' :: ws)).
    rewrite split_label_cons by exact Hw.
    rewrite IH; [reflexivity | discriminate | exact Hws].
Qed.

Lemma extrapolate_serialized (buffer : list Observation) :
  Forall (fun o => In (obs_quadrant o) ["NW"; "NE"; "SW"; "SE"]) buffer ->
  _extrapolate_next_quadrant (_serialize_pattern buffer)
  = if (2 <=? List.length buffer)%nat
    then last (map obs_quadrant buffer) ""
    else "UNKNOWN".
Proof.
  intros Hall. unfold _extrapolate_next_quadrant, _serialize_pattern.
  destruct buffer as [|o buffer]; [reflexivity|].
  rewrite split_join_labels.
  - rewrite List.length_map. reflexivity.
  - discriminate.
  - apply Forall_map. exact Hall.
Qed.

(** X6. Splitting a serialized pattern gives back the quadrant labels:
    on a buffer of quadrant-labelled observations, the extrapolated next
    quadrant of its serialization is the label of the newest observation
    when there are at least two, and "UNKNOWN" otherwise. *)
Theorem X6_extrapolate_is_newest_label (buffer : list Observation) :
  Forall (fun o => In (obs_quadrant o) ["NW"; "NE"; "SW"; "SE"]) buffer ->
  Py.split "_" (_serialize_pattern buffer)
  = (if (1 <=? List.length buffer)%nat then map obs_quadrant buffer else [""])
  /\ _extrapolate_next_quadrant (_serialize_pattern buffer)
     = if (2 <=? List.length buffer)%nat
       then last (map obs_quadrant buffer) ""
       else "UNKNOWN".
Proof.
  intros Hall. split; [|now apply extrapolate_serialized].
  unfold _serialize_pattern.
  destruct buffer as [|o buffer]; [reflexivity|].
  cbn [List.length Nat.leb].
  apply split_join_labels; [discriminate|].
  apply Forall_map. exact Hall.
Qed.

Section PredictionExtras.

Context {VM : VaultManager}.

Lemma deque_append_Forall {A} (P : A -> Prop) (d : list A) (x : A) :
  Forall P d -> P x -> Forall P (deque_append 5 d x).
Proof.
  intros Hd Hx. unfold deque_append.
  destruct (5 <=? List.length d)%nat.
  - apply Forall_app. split; [|auto].
    destruct d; [constructor | now inversion Hd].
  - apply Forall_app. split; auto.
Qed.

Lemma last_map_nonempty {A B} (f : A -> B) (l : list A) (d : A) (d' : B) :
  l <> [] -> last (map f l) d' = f (last l d).
Proof.
  induction l as [|a l IH]; intros Hne; [contradiction|].
  destruct l as [|b l]; [reflexivity|].
  change (last (map f (a :: b :: l)) d') with (last (map f (b :: l)) d').
  change (last (a :: b :: l) d) with (last (b :: l) d).
  apply IH. discriminate.
Qed.

Lemma deque_append_last {A} (d : list A) (x dflt : A) :
  last (deque_append 5 d x) dflt = x.
Proof.
  unfold deque_append. destruct (5 <=? List.length d)%nat; apply last_last.
Qed.

(** X7. What the tracker persists as [predicted_next] is the quadrant of
    the stimulus just observed: on a buffer of quadrant-labelled
    observations, a cursor movement that brings the buffer to three or
    more is crystallized under "habit_" + the serialized buffer, with
    [predicted_next] the quadrant of the stimulus' own coordinates; and
    the buffer stays quadrant-labelled. *)
Theorem X7_predicted_next_is_present_quadrant
  (ht : HabitTracker) (v : Vault) (stimulus : Stimulus) (now : Q) :
  stim_type stimulus = Some "cursor_movement" ->
  Forall (fun o => In (obs_quadrant o) ["NW"; "NE"; "SW"; "SE"]) (sequence_buffer ht) ->
  (2 <= List.length (sequence_buffer ht))%nat ->
  Forall (fun o => In (obs_quadrant o) ["NW"; "NE"; "SW"; "SE"])
         (sequence_buffer (fst (fst (record_observation ht v stimulus now))))
  /\ exists key frequency,
       key = _serialize_pattern
               (sequence_buffer (fst (fst (record_observation ht v stimulus now))))
       /\ snd (fst (record_observation ht v stimulus now))
          = crystallize v (KeyString ("habit_" ++ key))
              (HabitValue
                 {| hr_pattern := Some key;
                    hr_frequency := Some frequency;
                    hr_predicted_next :=
                      Some (_coords_to_quadrant
                              (default (0, 0) (stim_coordinates stimulus)));
                    hr_temporal_decay := Some 0.95 |}).
Proof.
  intros Htype Hall Hlen.
  unfold record_observation. rewrite Htype.
  rewrite bool_decide_eq_true_2 by reflexivity. cbn [negb].
  set (obs := {| obs_quadrant := _; obs_coords := _; obs_velocity := _;
                 obs_timestamp := _ |}).
  set (buffer := deque_append 5 (sequence_buffer ht) obs).
  assert (Hvalid : Forall (fun o => In (obs_quadrant o) ["NW"; "NE"; "SW"; "SE"])
                          buffer).
  { apply deque_append_Forall; [exact Hall|]. apply _coords_to_quadrant_label. }
  assert (Hblen : (3 <= List.length buffer)%nat).
  { unfold buffer, deque_append.
    destruct (5 <=? List.length (sequence_buffer ht))%nat eqn:E.
    - apply Nat.leb_le in E. rewrite List.length_app. cbn [List.length].
      destruct (sequence_buffer ht); cbn [tl List.length] in *; lia.
    - rewrite List.length_app. cbn [List.length]. lia. }
  assert (Hnewest : last buffer obs = obs) by apply deque_append_last.
  apply Nat.leb_le in Hblen as Hb. rewrite Hb.
  unfold _update_conjunction_frequency.
  cbn [fst snd sequence_buffer pattern_cache].
  split; [exact Hvalid|].
  eexists _, _. split; [reflexivity|].
  rewrite (extrapolate_serialized buffer Hvalid).
  replace (2 <=? List.length buffer)%nat with true
    by (symmetry; apply Nat.leb_le; lia).
  rewrite (last_map_nonempty obs_quadrant buffer obs "")
    by (intros H0; rewrite H0 in Hblen; cbn in Hblen; lia).
  rewrite Hnewest. reflexivity.
Qed.

End PredictionExtras.

(** *** Pattern memory: quadrant heat *)

(** The sum inside [get_quadrant_heat]. *)
Lemma heat_step_comm (quadrant_code : string) (j1 j2 : string) (z1 z2 y : Z) :
  (fun pattern count heat =>
     if contains quadrant_code pattern then (heat + count)%Z else heat)
    j1 z1
    ((fun pattern count heat =>
        if contains quadrant_code pattern then (heat + count)%Z else heat) j2 z2 y)
  = (fun pattern count heat =>
       if contains quadrant_code pattern then (heat + count)%Z else heat)
      j2 z2
      ((fun pattern count heat =>
          if contains quadrant_code pattern then (heat + count)%Z else heat) j1 z1 y).
Proof.
  cbv beta.
  destruct (contains quadrant_code j1), (contains quadrant_code j2); lia.
Qed.

Lemma heat_sum_insert_fresh
  (quadrant_code k : string) (c : Z) (m : gmap string Z) :
  m !! k = None ->
  map_fold
    (fun pattern count heat =>
       if contains quadrant_code pattern then (heat + count)%Z else heat)
    0%Z (<[k := c]> m)
  = (map_fold
       (fun pattern count heat =>
          if contains quadrant_code pattern then (heat + count)%Z else heat)
       0%Z m
     + if contains quadrant_code k then c else 0)%Z.
Proof.
  intros Hk. rewrite map_fold_insert_L; [|intros; apply heat_step_comm | exact Hk].
  destruct (contains quadrant_code k); lia.
Qed.

Lemma heat_sum_insert
  (quadrant_code k : string) (c : Z) (m : gmap string Z) :
  map_fold
    (fun pattern count heat =>
       if contains quadrant_code pattern then (heat + count)%Z else heat)
    0%Z (<[k := c]> m)
  = (map_fold
       (fun pattern count heat =>
          if contains quadrant_code pattern then (heat + count)%Z else heat)
       0%Z m
     + if contains quadrant_code k then c - default 0 (m !! k) else 0)%Z.
Proof.
  destruct (m !! k) as [c0|] eqn:Hk.
  - assert (E1 := heat_sum_insert_fresh quadrant_code k c (delete k m)
                    (lookup_delete_eq m k)).
    assert (E0 := heat_sum_insert_fresh quadrant_code k c0 (delete k m)
                    (lookup_delete_eq m k)).
    rewrite insert_delete_eq in E1.
    rewrite (insert_delete_id m k c0 Hk) in E0.
    rewrite E1, E0. change (default 0%Z (Some c0)) with c0.
    destruct (contains quadrant_code k); lia.
  - rewrite heat_sum_insert_fresh by exact Hk.
    change (default 0%Z None) with 0%Z. destruct (contains quadrant_code k); lia.
Qed.

Lemma heat_sum_nonneg (quadrant_code : string) (m : gmap string Z) :
  map_Forall (fun _ c => (0 <= c)%Z) m ->
  (0 <= map_fold
          (fun pattern count heat =>
             if contains quadrant_code pattern then (heat + count)%Z else heat)
          0%Z m)%Z.
Proof.
  apply (map_fold_weak_ind
           (fun r m => map_Forall (fun _ c => (0 <= c)%Z) m -> (0 <= r)%Z)).
  - intros _. lia.
  - intros i x m' r Hi IH Hall.
    apply map_Forall_insert in Hall as [Hx Hm]; [|exact Hi].
    specialize (IH Hm). destruct (contains quadrant_code i); lia.
Qed.

Lemma heat_of_sum_mono (a b : Z) :
  (a <= b)%Z -> Py.min (inject_Z a / 100) 1 <= Py.min (inject_Z b / 100) 1.
Proof.
  intros Hab. apply pymin_glb.
  - apply Qle_trans with (inject_Z a / 100); [apply pymin_le_l|].
    apply Qmult_le_compat_r; [|discriminate].
    rewrite <- Zle_Qle. exact Hab.
  - apply pymin_le_r.
Qed.

Section HeatExtras.

Context {VM : VaultManager}.

(** X8. The heat of a quadrant is at most 1, is at least 0 when no
    occurrence count is negative, and recording an observation never
    lowers it; occurrence counts that are non-negative stay so. *)
Theorem X8_quadrant_heat_bounded_and_monotone
  (ht : HabitTracker) (v : Vault) (stimulus : Stimulus) (now : Q)
  (quadrant_code : string) :
  get_quadrant_heat ht quadrant_code <= 1
  /\ get_quadrant_heat ht quadrant_code
     <= get_quadrant_heat (fst (fst (record_observation ht v stimulus now)))
                          quadrant_code
  /\ (map_Forall (fun _ c => (0 <= c)%Z) (pattern_cache ht) ->
      0 <= get_quadrant_heat ht quadrant_code
      /\ map_Forall (fun _ c => (0 <= c)%Z)
                    (pattern_cache (fst (fst (record_observation ht v stimulus now))))).
Proof.
  split; [apply pymin_le_r|]. split.
  - unfold get_quadrant_heat. apply heat_of_sum_mono.
    rewrite record_observation_cache.
    destruct (_ && _); [|lia].
    rewrite heat_sum_insert.
    destruct (contains quadrant_code _); lia.
  - intros Hall. split.
    + unfold get_quadrant_heat. apply pymin_glb; [|lra].
      apply Qle_shift_div_l; [reflexivity|].
      rewrite Qmult_0_l. change 0 with (inject_Z 0). rewrite <- Zle_Qle.
      now apply heat_sum_nonneg.
    + rewrite record_observation_cache.
      destruct (_ && _); [|exact Hall].
      apply map_Forall_insert_2; [|exact Hall].
      destruct (pattern_cache ht !! _) as [c|] eqn:Hc; unfold default; cbn [from_option id]; [|lia].
      specialize (Hall _ _ Hc). cbn in Hall. lia.
Qed.

End HeatExtras.

(** *** Necessity detector: range and failure *)

Section NecessityExtras.

Context {HE : HLSFEngine}.

Lemma ratio_in_unit_interval (a b : nat) :
  (a <= b)%nat ->
  0 <= inject_Z (Z.of_nat a) / inject_Z (Z.of_nat b)
  /\ inject_Z (Z.of_nat a) / inject_Z (Z.of_nat b) <= 1.
Proof.
  intros Hab. destruct b as [|b].
  - assert (a = 0%nat) as -> by lia. split; vm_compute; discriminate.
  - assert (Hb : 0 < inject_Z (Z.of_nat (S b))).
    { change 0 with (inject_Z 0). rewrite <- Zlt_Qlt. lia. }
    split.
    + apply Qle_shift_div_l; [exact Hb|]. rewrite Qmult_0_l.
      change 0 with (inject_Z 0). rewrite <- Zle_Qle. lia.
    + apply Qle_shift_div_r; [exact Hb|]. rewrite Qmult_1_l.
      rewrite <- Zle_Qle. lia.
Qed.

(** X9. The bilateral symmetry score is always computed and is a
    fraction: it lies between 0 and 1. *)
Theorem X9_symmetry_score_is_a_fraction (e : Engine) :
  exists score,
    _calculate_bilateral_symmetry e = Returned score
    /\ 0 <= score /\ score <= 1.
Proof.
  destruct (_calculate_bilateral_symmetry_spec e) as (score & Hscore & Hspec).
  exists score. split; [exact Hscore|].
  rewrite Hspec. unfold Spec.bilateral_symmetry.
  apply ratio_in_unit_interval, List.filter_length_le.
Qed.

Lemma add_coordinates_length (centroid coordinates : list Q) :
  List.length (add_coordinates centroid coordinates) = List.length centroid.
Proof.
  revert coordinates. induction centroid as [|c cs IH]; intros [|x xs];
    cbn [add_coordinates List.length]; try reflexivity.
  now rewrite IH.
Qed.

Lemma add_coordinates_fold_length (nodes : list Node) (centroid : list Q) :
  List.length
    (fold_left (fun centroid node => add_coordinates centroid (node_coordinates node))
               nodes centroid)
  = List.length centroid.
Proof.
  revert centroid. induction nodes as [|n nodes IH]; intros centroid;
    cbn [fold_left]; [reflexivity|].
  now rewrite IH, add_coordinates_length.
Qed.

Lemma _calculate_substance_vector_low_dimension (e : Engine) (current_node : Node) :
  (dimension e < 2)%nat ->
  field_map e <> [] ->
  _calculate_substance_vector e current_node = Raised "IndexError".
Proof.
  intros Hdim Hne. unfold _calculate_substance_vector.
  destruct (field_map e) as [|n0 ns] eqn:Hmap; [contradiction|].
  cbv beta iota zeta.
  set (nodes := n0 :: ns) in *.
  rewrite traverse_truediv
    by (apply inject_Z_nonzero; subst nodes; cbn [List.length]; lia).
  cbn [bind].
  pose proof (add_coordinates_fold_length nodes
                (repeat 0 (Nat.min (dimension e) 18))) as Hlen.
  rewrite List.repeat_length in Hlen.
  destruct (fold_left _ nodes _) as [|c0 [|c1 rest]];
    cbn [map List.length] in *; try reflexivity.
  lia.
Qed.

(** X10. [check_necessity] raises — an IndexError from the two-component
    necessity vector — exactly when the engine has fewer than two
    dimensions and the field would trigger a jump (more than 50 nodes,
    symmetry above 0.9); in every other case it returns. *)
Theorem X10_check_necessity_raises_iff_low_dimension_jump
  (e : Engine) (stimulus : Stimulus) (current_node : Node) :
  (check_necessity IntuitiveRecognizer_init e stimulus current_node
   = Raised "IndexError"
   <-> (dimension e < 2)%nat
       /\ (50 < Z.of_nat (List.length (field_map e)))%Z
       /\ 0.9 < Spec.bilateral_symmetry (map node_coordinates (field_map e)))
  /\ ((exists r, check_necessity IntuitiveRecognizer_init e stimulus current_node
                 = Returned r)
      \/ check_necessity IntuitiveRecognizer_init e stimulus current_node
         = Raised "IndexError").
Proof.
  destruct (_calculate_bilateral_symmetry_spec e) as (score & Hscore & Hspec).
  unfold check_necessity. rewrite Hscore. cbn [bind].
  cbn [IntuitiveRecognizer_init density_threshold symmetry_threshold].
  destruct (50 <? Z.of_nat (List.length (field_map e)))%Z eqn:Hdens.
  - apply Z.ltb_lt in Hdens.
    assert (Hne : field_map e <> []).
    { intros H0. rewrite H0 in Hdens. cbn in Hdens. lia. }
    destruct (Qltb_cases 0.9 score) as [[-> Hsym] | [-> Hsym]].
    + destruct (Nat.lt_ge_cases (dimension e) 2) as [Hlow|Hok].
      * rewrite (_calculate_substance_vector_low_dimension e current_node Hlow Hne).
        cbn [bind]. split; [|right; reflexivity].
        split; [intros _; repeat split; [exact Hlow | exact Hdens | lra]
               | reflexivity].
      * destruct (_calculate_substance_vector_spec e current_node Hok Hne)
          as (cx & cy & -> & _).
        cbn [bind]. split; [|left; eauto].
        split; [discriminate | intros [Hlow _]; lia].
    + split; [|left; eauto].
      split; [discriminate | intros (_ & _ & H); lra].
  - apply Z.ltb_ge in Hdens.
    split; [|left; eauto].
    split; [discriminate | intros (_ & H & _); lia].
Qed.

End NecessityExtras.

(** *** Proprioception *)

Section ProprioceptionExtras.

Context {PL : PyLib}.

(** X11. [update_physics] never raises, whatever the time step: the new
    position is the given one, the two distance thresholds are kept, and
    for a time step that is not positive the velocity is zero. *)
Theorem X11_update_physics_total
  (ps : ProprioceptionSystem) (current_pos : Q * Q) (dt now : Q) :
  exists ps',
    update_physics ps current_pos dt now = Returned ps'
    /\ position ps' = current_pos
    /\ target_safe_distance ps' = target_safe_distance ps
    /\ min_safe_distance ps' = min_safe_distance ps
    /\ last_update ps' = now
    /\ (if Qltb 0 dt
        then fst (prop_velocity ps') == (fst current_pos - fst (position ps)) / dt
             /\ snd (prop_velocity ps') == (snd current_pos - snd (position ps)) / dt
        else prop_velocity ps' = (0, 0)).
Proof.
  unfold update_physics.
  destruct (Qltb_cases 0 dt) as [[-> Hdt] | [-> Hdt]].
  - rewrite !truediv_returns by lra. cbn [bind].
    eexists. split; [reflexivity|]. cbn. repeat split; reflexivity.
  - cbn [bind]. eexists. split; [reflexivity|]. cbn. repeat split; reflexivity.
Qed.


End ProprioceptionExtras.

(** *** Mode synthesizer: the decision table *)

Section SynthesisExtras.

Context {BE : BayesianEngine} {HE : HLSFEngine}.

(** The resolved mode as a function of the tests the rules make. *)
Lemma resolved_mode
  (e : Engine) (b : Bayes) (inductive : option Prediction)
  (intuitive : Necessity) (bayes_shadows : list (string * Q)) :
  active_mode (_synthesize_logic_triad e b inductive intuitive bayes_shadows)
  = if jump_triggered intuitive then "INTUITION-JUMP"
    else if Qleb (max_field_density e * 0.95) (inject_Z (Spec.effective_density e))
            || Qltb 0.45 (default 0 (calculate_posterior b "jump_necessary"))
    then "INTUITION-JUMP"
    else if match inductive with
            | Some p => Qltb 0.35 (pred_confidence p)
            | None => false
            end
            || Qltb 0.55 (default 0 (calculate_posterior b "habit_continues"))
    then "HABIT"
    else if match inductive with Some _ => true | None => false end
            || Qleb (purge_trigger_threshold e) (inject_Z (Spec.effective_density e))
    then "GUARD-HABIT"
    else "GUARD".
Proof.
  unfold _synthesize_logic_triad.
  destruct (jump_triggered intuitive); [reflexivity|].
  cbv zeta. cbn [field_density]. fold (Spec.effective_density e).
  destruct inductive as [p|]; [destruct (Qltb 0.35 (pred_confidence p))|];
    destruct (Qleb (purge_trigger_threshold e) (inject_Z (Spec.effective_density e)));
    cbn -[Qleb Qltb Qmult];
    destruct (Qleb (max_field_density e * 0.95) (inject_Z (Spec.effective_density e)));
    cbn -[Qleb Qltb Qmult];
    destruct (Qltb 0.55 (default 0 (calculate_posterior b "habit_continues")));
    cbn -[Qleb Qltb Qmult];
    destruct (Qltb 0.45 (default 0 (calculate_posterior b "jump_necessary")));
    reflexivity.
Qed.

Lemma Qleb_cases (x y : Q) :
  (Qleb x y = true /\ x <= y) \/ (Qleb x y = false /\ y < x).
Proof.
  destruct (Qleb x y) eqn:E.
  - left. split; [reflexivity | now apply Qleb_le].
  - right. split; [reflexivity|]. apply Qnot_le_lt. intros H.
    apply Qleb_le in H. congruence.
Qed.

(** X13. The resolved mode is one of the four modes, decided by this
    table.  INTUITION-JUMP: the detector triggered, or the density is at
    least 0.95 of [max_field_density], or the jump posterior exceeds 0.45.
    Otherwise HABIT: the prediction's confidence exceeds 0.35 or the habit
    posterior exceeds 0.55.  Otherwise GUARD-HABIT: there is a prediction
    or the density reaches [purge_trigger_threshold].  Otherwise GUARD. *)
Theorem X13_resolved_mode_decision_table
  (e : Engine) (b : Bayes) (inductive : option Prediction)
  (intuitive : Necessity) (bayes_shadows : list (string * Q)) :
  (active_mode (_synthesize_logic_triad e b inductive intuitive bayes_shadows)
   = "INTUITION-JUMP"
   <-> jump_triggered intuitive = true
       \/ max_field_density e * 0.95 <= inject_Z (Spec.effective_density e)
       \/ 0.45 < default 0 (calculate_posterior b "jump_necessary"))
  /\ (active_mode (_synthesize_logic_triad e b inductive intuitive bayes_shadows)
      = "HABIT"
      <-> active_mode (_synthesize_logic_triad e b inductive intuitive bayes_shadows)
          <> "INTUITION-JUMP"
          /\ ((exists p, inductive = Some p /\ 0.35 < pred_confidence p)
              \/ 0.55 < default 0 (calculate_posterior b "habit_continues")))
  /\ (active_mode (_synthesize_logic_triad e b inductive intuitive bayes_shadows)
      = "GUARD"
      <-> jump_triggered intuitive = false
          /\ inject_Z (Spec.effective_density e) < max_field_density e * 0.95
          /\ default 0 (calculate_posterior b "jump_necessary") <= 0.45
          /\ default 0 (calculate_posterior b "habit_continues") <= 0.55
          /\ inductive = None
          /\ inject_Z (Spec.effective_density e) < purge_trigger_threshold e)
  /\ In (active_mode (_synthesize_logic_triad e b inductive intuitive bayes_shadows))
        ["GUARD"; "GUARD-HABIT"; "HABIT"; "INTUITION-JUMP"].
Proof.
  rewrite resolved_mode.
  destruct (jump_triggered intuitive).
  { repeat split; intros; try discriminate; cbn; auto;
      match goal with
      | H : _ /\ _ |- _ => destruct H; try congruence; try discriminate
      end. }
  destruct (Qleb_cases (max_field_density e * 0.95)
                       (inject_Z (Spec.effective_density e))) as [[-> Hmax] | [-> Hmax]];
    destruct (Qltb_cases 0.45 (default 0 (calculate_posterior b "jump_necessary")))
      as [[-> Hjp] | [-> Hjp]];
    cbn [orb];
    try (repeat split; intros; try discriminate; cbn; auto;
         repeat match goal with
                | H : _ /\ _ |- _ => destruct H
                end; try congruence; lra).
  assert (Hind :
            (match inductive with
             | Some p => Qltb 0.35 (pred_confidence p)
             | None => false
             end = true
             /\ exists p, inductive = Some p /\ 0.35 < pred_confidence p)
            \/ (match inductive with
                | Some p => Qltb 0.35 (pred_confidence p)
                | None => false
                end = false
                /\ ~ exists p, inductive = Some p /\ 0.35 < pred_confidence p)).
  { destruct inductive as [p|].
    - destruct (Qltb_cases 0.35 (pred_confidence p)) as [[-> H] | [-> H]].
      + left. eauto.
      + right. split; [reflexivity|]. intros (p' & Heq & H').
        injection Heq as <-. lra.
    - right. split; [reflexivity|]. intros (p' & Heq & _). discriminate Heq. }
  destruct Hind as [[-> Hind] | [-> Hind]];
    destruct (Qltb_cases 0.55 (default 0 (calculate_posterior b "habit_continues")))
      as [[-> Hhp] | [-> Hhp]];
    cbn [orb];
    try (repeat split; intros; try discriminate; cbn; auto;
         repeat match goal with
                | H : _ /\ _ |- _ => destruct H
                end; try congruence; try lra;
         match goal with
         | H : inductive = None |- _ =>
             destruct Hind as (p & Hp & _); congruence
         end).
  destruct inductive as [p|];
    destruct (Qleb_cases (purge_trigger_threshold e)
                         (inject_Z (Spec.effective_density e)))
      as [[-> Hpurge] | [-> Hpurge]];
    cbn [orb];
    repeat split; intros; try discriminate; cbn; auto 6;
      repeat match goal with
             | H : _ /\ _ |- _ => destruct H
             | H : _ \/ _ |- _ => destruct H
             end; try congruence; try lra; try contradiction.
Qed.

(** X14. The confidence of a synthesized state is at least 0.85; it is
    0.99 when the necessity detector triggered, and at most 0.97
    otherwise — also when the mode was forced to INTUITION-JUMP by density
    or by the jump posterior. *)
Theorem X14_confidence_of_synthesized_state
  (e : Engine) (b : Bayes) (inductive : option Prediction)
  (intuitive : Necessity) (bayes_shadows : list (string * Q))
  (shadows : Shadows) (thought_vec : list Q) :
  0.85 <= _calculate_convergence shadows
            (_synthesize_logic_triad e b inductive intuitive bayes_shadows) thought_vec
  /\ if jump_triggered intuitive
     then _calculate_convergence shadows
            (_synthesize_logic_triad e b inductive intuitive bayes_shadows) thought_vec
          == 0.99
     else _calculate_convergence shadows
            (_synthesize_logic_triad e b inductive intuitive bayes_shadows) thought_vec
          <= 0.97.
Proof.
  assert (Hflags :
            intuitive_jump_triggered
              (_synthesize_logic_triad e b inductive intuitive bayes_shadows)
            = if jump_triggered intuitive then Some true else None).
  { unfold _synthesize_logic_triad.
    destruct (jump_triggered intuitive); [reflexivity|].
    cbv zeta.
    repeat match goal with
           | |- context [if ?c then _ else _] => destruct c
           end; reflexivity. }
  unfold _calculate_convergence. rewrite Hflags.
  pose proof (convergence_magnitude thought_vec) as Hm.
  pose proof (magnitude_nonneg thought_vec) as Hpos.
  set (m := match thought_vec with [] => 0 | _ => _ end) in *.
  assert (Hc0 : 0 <= Py.min (m * 0.001) 0.02) by (apply pymin_glb; lra).
  assert (Hc1 : Py.min (m * 0.001) 0.02 <= 0.02) by apply pymin_le_r.
  set (bonus := Py.min (m * 0.001) 0.02) in *.
  destruct (jump_triggered intuitive); unfold truthy_flag; cbn [default from_option id].
  - split.
    + apply pymin_glb; [|lra].
      destruct (3 <=? List.length shadows)%nat; lra.
    + rewrite pymin_Qmin.
      destruct (3 <=? List.length shadows)%nat;
        match goal with
        | |- Qmin ?a ?c == _ =>
            destruct (Q.min_spec a c) as [[? ->] | [? ->]]; lra
        end.
  - split.
    + apply pymin_glb; [|lra].
      destruct (default false (custom_habit_active _)),
               (3 <=? List.length shadows)%nat; lra.
    + eapply Qle_trans; [apply pymin_le_l|].
      destruct (default false (custom_habit_active _)),
               (3 <=? List.length shadows)%nat; lra.
Qed.

(** X15. The outcome feedback rewards at most one hypothesis: no two of
    the three success flags hold together, and none holds unless the mode
    is the one its hypothesis names. *)
Theorem X15_at_most_one_outcome_succeeds (logic_state : LogicState) :
  habit_success logic_state && jump_success logic_state = false
  /\ habit_success logic_state && guard_success logic_state = false
  /\ jump_success logic_state && guard_success logic_state = false
  /\ (habit_success logic_state = true ->
      active_mode logic_state = "HABIT" \/ active_mode logic_state = "GUARD-HABIT")
  /\ (jump_success logic_state = true -> active_mode logic_state = "INTUITION-JUMP")
  /\ (guard_success logic_state = true -> active_mode logic_state = "GUARD").
Proof.
  unfold guard_success, jump_success, habit_success.
  repeat case_bool_decide;
    repeat match goal with
           | H : active_mode logic_state = _ |- _ => rewrite H in *
           end;
    try discriminate;
    cbn [orb andb negb];
    repeat match goal with
           | |- context [Qltb ?a ?c] => destruct (Qltb a c)
           | |- context [truthy_flag ?x] => destruct (truthy_flag x)
           end;
    cbn [orb andb negb];
    repeat split; intros; try discriminate; auto.
Qed.

End SynthesisExtras.

(** *** Envelope arithmetic *)

Lemma or_else_nonzero (x : Q) : ~ or_else (Some x) 1 == 0.
Proof.
  unfold or_else. destruct (Qeq_bool x 0) eqn:E.
  - intros H. discriminate H.
  - intros H. apply Qeq_bool_iff in H. congruence.
Qed.

Lemma traverse_pair_truediv (ws : list (string * Q)) (total : Q) :
  ~ total == 0 ->
  traverse (fun kv => do w <- truediv (snd kv) total; Returned (fst kv, w)) ws
  = Returned (map (fun kv => (fst kv, snd kv / total)) ws).
Proof.
  intros Ht. induction ws as [|kv ws IH]; cbn [traverse map]; [reflexivity|].
  rewrite truediv_returns by exact Ht. cbn [bind]. now rewrite IH.
Qed.

Lemma sum_scaled (xs : list Q) (total : Q) :
  Py.sum (map (fun x => x / total) xs) == Py.sum xs / total.
Proof.
  unfold Py.sum. rewrite !fold_left_Qplus.
  induction xs as [|x xs IH]; cbn [map fold_right].
  - unfold Qdiv. ring.
  - unfold Qdiv in *.
    assert (H : fold_right Qplus 0 (map (fun x0 => x0 * / total) xs)
                == fold_right Qplus 0 xs * / total).
    { revert IH. generalize (fold_right Qplus 0 (map (fun x0 => x0 * / total) xs)),
        (fold_right Qplus 0 xs). intros a c H. lra. }
    rewrite H. ring.
Qed.

(** X16. [_normalize_weights] never raises and keeps the keys in order;
    when the weights do not sum to zero the normalized weights sum to 1,
    and when they do, each weight is kept as it is. *)
Theorem X16_normalize_weights_sum_to_one (weights : list (string * Q)) :
  exists normalized,
    _normalize_weights weights = Returned normalized
    /\ map fst normalized = map fst weights
    /\ if Qeq_bool (Py.sum (map snd weights)) 0
       then Forall2 (fun w n => snd n == snd w) weights normalized
       else Py.sum (map snd normalized) == 1.
Proof.
  unfold _normalize_weights.
  rewrite traverse_pair_truediv by apply or_else_nonzero.
  eexists. split; [reflexivity|].
  split; [rewrite List.map_map; reflexivity|].
  unfold or_else.
  destruct (Qeq_bool (Py.sum (map snd weights)) 0) eqn:E.
  - clear E. induction weights as [|kv ws IH]; cbn [map]; constructor.
    + cbn [snd]. unfold Qdiv. change (/ 1) with 1. ring.
    + apply IH.
  - rewrite List.map_map. cbn [snd].
    rewrite <- (List.map_map snd (fun x => x / Py.sum (map snd weights))).
    rewrite sum_scaled.
    apply Qmult_inv_r. intros H. apply Qeq_bool_iff in H. congruence.
Qed.

Section SoftmaxExtras.

Context {PL : PyLib}.

(** X17. [_softmax] never raises and returns one weight per value (none
    for no value); unless the exponentials sum to zero, the weights sum
    to 1. *)
Theorem X17_softmax_weights (values : list Q) :
  exists weights,
    _softmax values = Returned weights
    /\ List.length weights = List.length values
    /\ match values with
       | [] => weights = []
       | v :: vs =>
           if Qeq_bool
                (Py.sum (map (fun x => math_exp (x - max_of v vs)) values)) 0
           then True
           else Py.sum weights == 1
       end.
Proof.
  unfold _softmax. destruct values as [|v vs].
  - exists []. repeat split.
  - set (values := v :: vs).
    set (exps := map (fun x => math_exp (x - max_of v vs)) values).
    rewrite traverse_truediv by apply or_else_nonzero.
    eexists. split; [reflexivity|].
    split; [unfold exps; now rewrite !List.length_map|].
    unfold or_else.
    destruct (Qeq_bool (Py.sum exps) 0) eqn:E; [exact I|].
    rewrite sum_scaled.
    apply Qmult_inv_r. intros H. apply Qeq_bool_iff in H. congruence.
Qed.

(** X18. The reflection raises a flag exactly when its condition holds —
    drift: spread above 0.2; anomaly: entropy above 1.0; ethical tension:
    mode INTUITION-JUMP with entropy above 0.9 — records one event per
    raised flag, and agrees with the advisory it reflects on: a
    re-weighting is recommended iff drift or anomaly is flagged. *)
Theorem X18_reflection_flags_follow_tension
  (core : Core4) (adv : AdvisoryPlusOne) (logic_state : LogicState) :
  _build_advisory_plus_one core = Returned adv ->
  drift_detected (flags (_build_cali_reflection adv logic_state))
  = Qltb 0.2 (spread (tension_indicators adv))
  /\ anomaly_detected (flags (_build_cali_reflection adv logic_state))
     = Qltb 1 (entropy (tension_indicators adv))
  /\ ethical_tension (flags (_build_cali_reflection adv logic_state))
     = bool_decide (active_mode logic_state = "INTUITION-JUMP")
       && Qltb 0.9 (entropy (tension_indicators adv))
  /\ reweight_recommended (tension_indicators adv)
     = anomaly_detected (flags (_build_cali_reflection adv logic_state))
       || drift_detected (flags (_build_cali_reflection adv logic_state))
  /\ List.length (events (_build_cali_reflection adv logic_state))
     = ((if drift_detected (flags (_build_cali_reflection adv logic_state))
         then 1 else 0)
        + (if anomaly_detected (flags (_build_cali_reflection adv logic_state))
           then 1 else 0)
        + (if ethical_tension (flags (_build_cali_reflection adv logic_state))
           then 1 else 0))%nat.
Proof.
  intros Hadv.
  assert (Hre : reweight_recommended (tension_indicators adv)
                = Qltb 1 (entropy (tension_indicators adv))
                  || Qltb 0.2 (spread (tension_indicators adv))).
  { unfold _build_advisory_plus_one in Hadv.
    destruct (_softmax _) as [weights|exn]; cbn [bind] in Hadv; [|discriminate].
    injection Hadv as <-. reflexivity. }
  rewrite Hre. unfold _build_cali_reflection.
  cbn [flags events drift_detected anomaly_detected ethical_tension].
  destruct (Qltb 0.2 (spread (tension_indicators adv))),
           (Qltb 1 (entropy (tension_indicators adv))),
           (bool_decide (active_mode logic_state = "INTUITION-JUMP")),
           (Qltb 0.9 (entropy (tension_indicators adv)));
    repeat split.
Qed.

End SoftmaxExtras.

(** *** Sovereignty *)

(** X19. The sovereignty check rejects a stimulus exactly when it is
    typed [surveillance_probe] and its metadata does not set [test_mode]
    to [True]; a [test_mode] of [True] lets every stimulus through. *)
Theorem X19_sovereignty_rejects_only_unmarked_probes (stimulus : Stimulus) :
  (_check_sovereignty stimulus = false
   <-> stim_type stimulus = Some "surveillance_probe"
       /\ stim_test_mode stimulus <> Some (VBool true))
  /\ (stim_test_mode stimulus = Some (VBool true) ->
      _check_sovereignty stimulus = true).
Proof.
  unfold _check_sovereignty.
  assert (Hflag : is_True (stim_test_mode stimulus) = true
                  <-> stim_test_mode stimulus = Some (VBool true)).
  { destruct (stim_test_mode stimulus) as [[| [|] | |]|]; cbn;
      split; intros H; try discriminate H; reflexivity. }
  destruct (is_True (stim_test_mode stimulus)) eqn:E.
  - split; [|reflexivity].
    split; [discriminate|]. intros [_ H]. exfalso. apply H, Hflag. reflexivity.
  - assert (Hno : stim_test_mode stimulus <> Some (VBool true)).
    { intros H. apply Hflag in H. discriminate H. }
    split; [|intros H; contradiction].
    case_bool_decide as Ht; split; try discriminate; auto.
    intros [H _]. contradiction.
Qed.

(** *** Belief view, alignment and pulse *)

Section BeliefViewExtras.

Context {BE : BayesianEngine} {PL : PyLib}.

Lemma _update_bayesian_shadows_fold_keys
  (timestamp_id : string) (shadows : Shadows) (b : Bayes) (view : list (string * Q)) :
  map fst
    (snd (fold_left
            (fun (acc : Bayes * list (string * Q)) entry =>
               let '(b, bayes_view) := acc in
               let '(mind_name, shadow) := entry in
               let hyp := mind_name ++ "_pattern_persistence" in
               let likelihood := default 0.5 (sh_confidence shadow) in
               let reliability := default 1 (sh_reliability shadow) in
               let b := if has_prior b hyp then b else set_prior b hyp 0.5 1 in
               let b :=
                 add_evidence b hyp (timestamp_id ++ "_" ++ mind_name)
                              likelihood mind_name reliability in
               (b, (bayes_view
                    ++ [(mind_name, or_else (calculate_posterior b hyp) likelihood)])%list))
            shadows (b, view)))
  = (map fst view ++ map fst shadows)%list.
Proof.
  revert b view. induction shadows as [|[name shadow] shadows IH]; intros b view.
  - cbn [fold_left snd map]. now rewrite List.app_nil_r.
  - cbn [fold_left]. rewrite IH.
    rewrite List.map_app. cbn [map fst]. now rewrite <- List.app_assoc.
Qed.

(** X20. The Bayesian view built from the shadows has exactly one entry
    per perspective, under the perspective's name and in the shadows'
    order. *)
Theorem X20_bayesian_view_has_one_entry_per_shadow
  (b : Bayes) (shadows : Shadows) (now : Q) :
  map fst (snd (_update_bayesian_shadows b shadows now)) = map fst shadows
  /\ List.length (snd (_update_bayesian_shadows b shadows now))
     = List.length shadows.
Proof.
  assert (H : map fst (snd (_update_bayesian_shadows b shadows now))
              = map fst shadows).
  { unfold _update_bayesian_shadows.
    rewrite _update_bayesian_shadows_fold_keys. reflexivity. }
  split; [exact H|].
  rewrite <- (List.length_map fst), H. apply List.length_map.
Qed.

End BeliefViewExtras.

Lemma mean_in_unit_interval (xs : list Q) :
  Forall (fun x => 0 <= x /\ x <= 1) xs ->
  0 <= fold_right Qplus 0 xs
  /\ fold_right Qplus 0 xs <= inject_Z (Z.of_nat (List.length xs)).
Proof.
  induction 1 as [|x xs [Hx0 Hx1] _ [IH0 IH1]]; cbn [fold_right List.length].
  - split; vm_compute; discriminate.
  - rewrite Nat2Z.inj_succ, <- Z.add_1_r, inject_Z_plus.
    change (inject_Z 1) with 1. split; lra.
Qed.

(** X21. [pulse] never raises.  Its glow is the thought's confidence, it
    is marked deterministic exactly above 0.95, it reports the active
    mode whenever there is one, and its alignment is the mean of the
    shadows' confidences (0.5 for a shadow without one; 0 without
    shadows), which lies in [0, 1] when every confidence does. *)
Theorem X21_pulse_never_raises (t : CrossDomainPredicate) :
  exists p,
    pulse t = Returned p
    /\ glow_intensity p = confidence t
    /\ deterministic p = Qltb 0.95 (confidence t)
    /\ (active_mode (logic_validity t) <> "" ->
        cognitive_mode p = active_mode (logic_validity t))
    /\ epistemic_alignment p
       == fold_right Qplus 0
            (map (fun kv => default 0.5 (sh_confidence (snd kv))) (epistemic_traces t))
          / inject_Z (Z.of_nat (List.length (epistemic_traces t)))
    /\ (Forall (fun kv => 0 <= default 0.5 (sh_confidence (snd kv))
                          /\ default 0.5 (sh_confidence (snd kv)) <= 1)
               (epistemic_traces t) ->
        0 <= epistemic_alignment p /\ epistemic_alignment p <= 1).
Proof.
  assert (Halign :
            exists a,
              _calculate_axiomatic_alignment t = Returned a
              /\ a == fold_right Qplus 0
                        (map (fun kv => default 0.5 (sh_confidence (snd kv)))
                             (epistemic_traces t))
                      / inject_Z (Z.of_nat (List.length (epistemic_traces t)))).
  { unfold _calculate_axiomatic_alignment.
    destruct (epistemic_traces t) as [|kv traces] eqn:Ht.
    - exists 0. split; reflexivity.
    - rewrite truediv_returns
        by (apply inject_Z_nonzero; cbn [List.length map]; lia).
      eexists. split; [reflexivity|].
      unfold Py.sum. rewrite fold_left_Qplus, List.length_map.
      unfold Qdiv. ring. }
  destruct Halign as (a & Ha & Hmean).
  unfold pulse. rewrite Ha. cbn [bind].
  eexists. split; [reflexivity|].
  cbn [glow_intensity deterministic cognitive_mode epistemic_alignment].
  split; [reflexivity|]. split; [reflexivity|].
  split.
  { intros Hmode. rewrite bool_decide_eq_false_2 by exact Hmode. reflexivity. }
  split; [exact Hmean|].
  intros Hall. rewrite Hmean.
  assert (Hsum := mean_in_unit_interval
                    (map (fun kv => default 0.5 (sh_confidence (snd kv)))
                         (epistemic_traces t))).
  rewrite List.length_map in Hsum.
  destruct Hsum as [H0 H1]; [apply Forall_map; exact Hall|].
  destruct (epistemic_traces t) as [|kv traces].
  - split; vm_compute; discriminate.
  - assert (Hn : 0 < inject_Z (Z.of_nat (List.length (kv :: traces)))).
    { change 0 with (inject_Z 0). rewrite <- Zlt_Qlt. cbn [List.length]. lia. }
    split.
    + apply Qle_shift_div_l; [exact Hn|]. lra.
    + apply Qle_shift_div_r; [exact Hn|]. lra.
Qed.

(** *** Orchestrator: what a cycle leaves behind *)

Section OrchestratorExtras.

Context {VM : VaultManager} {BE : BayesianEngine} {HE : HLSFEngine}.
Context {FT : FourMindTribunal} {SF : SpaceFieldCognition} {PL : PyLib}.

Lemma perceive_memory (c : SF_ORB_Controller) (stimulus : Stimulus) (amb : Ambient) :
  habit_tracker (snd (perceive c stimulus amb))
  = fst (fst (record_observation (habit_tracker c) (vaults c) stimulus
                (t_observation amb)))
  /\ vaults (snd (perceive c stimulus amb))
     = snd (fst (record_observation (habit_tracker c) (vaults c) stimulus
                   (t_observation amb)))
  /\ intuitive_recognizer (snd (perceive c stimulus amb)) = intuitive_recognizer c.
Proof.
  unfold perceive.
  destruct (record_observation _ _ _ _) as [[ht vault] obs].
  destruct (process_stimulus _ _) as [bridge stats].
  unfold try.
  destruct (update_physics _ _ _ _) as [ps|exn]; [|repeat split].
  destruct (calculate_navigation_vector _ _ _ _ _ _) as [nav|exn]; [|repeat split].
  destruct (map_adjacency _ _) as [e node].
  destruct (check_necessity _ _ _ _) as [intuition|exn]; repeat split.
Qed.

Lemma synthesize_memory
  (c : SF_ORB_Controller) (stimulus : Stimulus) (amb : Ambient) (p : Perception) :
  habit_tracker (snd (synthesize c stimulus amb p)) = habit_tracker c
  /\ intuitive_recognizer (snd (synthesize c stimulus amb p)) = intuitive_recognizer c
  /\ proprioception (snd (synthesize c stimulus amb p)) = proprioception c
  /\ gravity_bridge (snd (synthesize c stimulus amb p)) = gravity_bridge c.
Proof.
  unfold synthesize.
  destruct (generate_epistemic_shadow _ _) as [trib shadows].
  destruct (_update_bayesian_shadows _ _ _) as [b bayes_shadows].
  destruct (get_recursive_neighbors _ _ _) as [e neighbors].
  unfold try.
  destruct (_build_correlation_envelope _ _ _ _ _ _) as [envelope|exn];
    [|repeat split].
  destruct (pulse _) as [predicate|exn]; repeat split.
Qed.

Lemma cognitively_emerge_memory
  (c : SF_ORB_Controller) (stimulus : Stimulus) (amb : Ambient) :
  habit_tracker (snd (cognitively_emerge c stimulus amb))
  = if _check_sovereignty stimulus
    then fst (fst (record_observation (habit_tracker c) (vaults c) stimulus
                     (t_observation amb)))
    else habit_tracker c.
Proof.
  unfold cognitively_emerge.
  destruct (_check_sovereignty stimulus); cbn [negb]; [|reflexivity].
  pose proof (perceive_memory c stimulus amb) as (Hht & _ & _).
  destruct (perceive c stimulus amb) as [[p|exn] c1]; cbn [snd] in *;
    [|exact Hht].
  destruct (lightning_query (vaults c1) stimulus) as [cached|]; [exact Hht|].
  pose proof (synthesize_memory c1 stimulus amb p) as (Hs & _).
  destruct (synthesize c1 stimulus amb p) as [[t|exn] c2]; cbn [snd] in *;
    congruence.
Qed.

(** X22. Pattern memory is written once per accepted stimulus and nowhere
    else: whatever [cognitively_emerge] does afterwards — bypass, full
    cycle or exception — the habit tracker it leaves is the one
    [record_observation] produced, and the tracker of a rejected stimulus
    or of a stimulus that is not a cursor movement is the old one. *)
Theorem X22_pattern_memory_written_once
  (c : SF_ORB_Controller) (stimulus : Stimulus) (amb : Ambient) :
  habit_tracker (snd (cognitively_emerge c stimulus amb))
  = (if _check_sovereignty stimulus
     then fst (fst (record_observation (habit_tracker c) (vaults c) stimulus
                      (t_observation amb)))
     else habit_tracker c)
  /\ (stim_type stimulus <> Some "cursor_movement" ->
      habit_tracker (snd (cognitively_emerge c stimulus amb)) = habit_tracker c).
Proof.
  split; [apply cognitively_emerge_memory|].
  intros Htype. rewrite cognitively_emerge_memory.
  destruct (_check_sovereignty stimulus); [|reflexivity].
  unfold record_observation.
  rewrite bool_decide_eq_false_2 by exact Htype. reflexivity.
Qed.

Lemma synthesize_persisted
  (c c' : SF_ORB_Controller) (stimulus : Stimulus) (amb : Ambient)
  (p : Perception) (thought : CrossDomainPredicate) :
  synthesize c stimulus amb p = (Returned thought, c') ->
  exists predicate envelope,
    pulse thought = Returned predicate
    /\ ucm_envelope thought = Some envelope
    /\ env_confidence envelope = confidence thought
    /\ th_cali_reflection thought = Some (cali_reflection envelope)
    /\ gravity_stats thought = Some (per_gravity_stats p)
    /\ navigation_vector thought = Some (per_nav_vector p)
    /\ (exists thought_vec,
          confidence thought
          = _calculate_convergence (epistemic_traces thought)
              (logic_validity thought) thought_vec)
    /\ vaults c'
       = crystallize (vaults c) (KeyStimulus stimulus)
           (CrystalValue
              {| cr_predicate := predicate;
                 cr_confidence := confidence thought;
                 triad_c_mode := active_mode (logic_validity thought);
                 cr_field_density := field_density (logic_validity thought);
                 cr_ucm_envelope := envelope;
                 cr_cali_reflection := cali_reflection envelope |}).
Proof.
  unfold synthesize.
  destruct (generate_epistemic_shadow (tribunal c) stimulus) as [trib shadows].
  cbn [bayes set_tribunal].
  destruct (_update_bayesian_shadows (bayes c) shadows (t_bayes amb))
    as [b bayes_shadows].
  cbn [bayes engine set_bayes set_tribunal].
  destruct (get_recursive_neighbors (engine c) (per_node p) 3) as [e neighbors].
  intros H.
  apply try_returned in H as (envelope & Henv & H).
  apply try_returned in H as (predicate & Hpulse & H).
  injection H as <- <-.
  exists predicate, envelope.
  split; [exact Hpulse|].
  cbn [ucm_envelope th_cali_reflection gravity_stats navigation_vector confidence
       epistemic_traces logic_validity vaults set_vaults set_bayes set_engine].
  split; [reflexivity|].
  split.
  { unfold _build_correlation_envelope in Henv.
    destruct (_build_core_4_returns _ _ _) as [core|exn]; cbn [bind] in Henv;
      [|discriminate].
    destruct (_build_advisory_plus_one _) as [adv|exn]; cbn [bind] in Henv;
      [|discriminate].
    injection Henv as <-. reflexivity. }
  repeat split. eexists. reflexivity.
Qed.

(** X23. A cycle that returns a thought crystallizes it once, under the
    stimulus itself and on top of the vault left by the observation: the
    stored record carries the thought's confidence and field density, its
    envelope, and the resolved mode both as [triad_c_mode] and as the
    pulse's [cognitive_mode]. *)
Theorem X23_full_cycle_crystallizes_the_thought
  (c c' : SF_ORB_Controller) (stimulus : Stimulus) (amb : Ambient)
  (thought : CrossDomainPredicate) :
  cognitively_emerge c stimulus amb = (Returned (Some (Emerged thought)), c') ->
  exists crystal,
    vaults c'
    = crystallize
        (snd (fst (record_observation (habit_tracker c) (vaults c) stimulus
                     (t_observation amb))))
        (KeyStimulus stimulus) (CrystalValue crystal)
    /\ pulse thought = Returned (cr_predicate crystal)
    /\ triad_c_mode crystal = active_mode (logic_validity thought)
    /\ cognitive_mode (cr_predicate crystal) = active_mode (logic_validity thought)
    /\ cr_confidence crystal = confidence thought
    /\ cr_field_density crystal = field_density (logic_validity thought)
    /\ ucm_envelope thought = Some (cr_ucm_envelope crystal).
Proof.
  intros H.
  apply cognitively_emerge_emerged in H as (p & c1 & Hper & _ & Hsyn).
  pose proof (perceive_memory c stimulus amb) as (_ & Hvault & _).
  rewrite Hper in Hvault. cbn [snd] in Hvault.
  pose proof (synthesize_returned _ _ _ _ _ _ Hsyn) as (_ & Hlogic & _).
  apply synthesize_persisted in Hsyn
    as (predicate & envelope & Hpulse & Hucm & _ & _ & _ & _ & _ & Hstore).
  eexists. split; [rewrite Hstore, Hvault; reflexivity|].
  cbn [cr_predicate triad_c_mode cr_confidence cr_field_density cr_ucm_envelope].
  split; [exact Hpulse|]. split; [reflexivity|].
  split; [|split; [reflexivity|split; [reflexivity|exact Hucm]]].
  unfold pulse in Hpulse.
  destruct (_calculate_axiomatic_alignment thought) as [a|exn];
    cbn [bind] in Hpulse; [|discriminate].
  injection Hpulse as <-. cbn [cognitive_mode].
  rewrite bool_decide_eq_false_2; [reflexivity|].
  rewrite Hlogic, resolved_mode.
  repeat match goal with
         | |- context [if ?b then _ else _] => destruct b
         end; discriminate.
Qed.

(** X24. What every returned thought satisfies: its confidence lies in
    [0.85, 0.99] and is the envelope's; its mode is one of the four; its
    verdict is "no_act" exactly for GUARD and "escalate" exactly for
    INTUITION-JUMP; and its reflection, gravity statistics and navigation
    vector are attached. *)
Theorem X24_returned_thought_invariants
  (c c' : SF_ORB_Controller) (stimulus : Stimulus) (amb : Ambient)
  (thought : CrossDomainPredicate) :
  cognitively_emerge c stimulus amb = (Returned (Some (Emerged thought)), c') ->
  0.85 <= confidence thought
  /\ confidence thought <= 0.99
  /\ In (active_mode (logic_validity thought))
        ["GUARD"; "GUARD-HABIT"; "HABIT"; "INTUITION-JUMP"]
  /\ (th_final_verdict thought = Some "no_act"
      <-> active_mode (logic_validity thought) = "GUARD")
  /\ (th_final_verdict thought = Some "escalate"
      <-> active_mode (logic_validity thought) = "INTUITION-JUMP")
  /\ (exists envelope,
        ucm_envelope thought = Some envelope
        /\ env_confidence envelope = confidence thought
        /\ th_cali_reflection thought = Some (cali_reflection envelope))
  /\ gravity_stats thought <> None
  /\ navigation_vector thought <> None.
Proof.
  intros H.
  apply cognitively_emerge_emerged in H as (p & c1 & _ & _ & Hsyn).
  pose proof (synthesize_returned _ _ _ _ _ _ Hsyn)
    as (_ & Hlogic & _ & env & Henv & Hucm & Hverdict & _).
  apply synthesize_persisted in Hsyn
    as (predicate & envelope & _ & Hucm' & Hconf & Hrefl & Hstats & Hnav
        & (vec & Hvec) & _).
  assert (Hmode : In (active_mode (logic_validity thought))
                     ["GUARD"; "GUARD-HABIT"; "HABIT"; "INTUITION-JUMP"]).
  { rewrite Hlogic, resolved_mode.
    repeat match goal with
           | |- context [if ?b then _ else _] => destruct b
           end; cbn; auto. }
  assert (Hfinal : th_final_verdict thought
                   = Some (_verdict_from_mode (active_mode (logic_validity thought)))).
  { rewrite Hverdict. f_equal.
    unfold _build_correlation_envelope in Henv.
    destruct (_build_core_4_returns _ _ _) as [core|exn]; cbn [bind] in Henv;
      [|discriminate].
    destruct (_build_advisory_plus_one _) as [adv|exn]; cbn [bind] in Henv;
      [|discriminate].
    injection Henv as <-. cbn [final_verdict]. now rewrite Hlogic. }
  split; [|split].
  - rewrite Hvec. unfold _calculate_convergence.
    pose proof (convergence_magnitude vec) as Hm.
    pose proof (magnitude_nonneg vec) as Hpos.
    set (m := match vec with [] => 0 | _ => _ end) in *.
    assert (Hc0 : 0 <= Py.min (m * 0.001) 0.02) by (apply pymin_glb; lra).
    apply pymin_glb; [|lra].
    repeat match goal with
           | |- context [if ?b then _ else _] => destruct b
           end; lra.
  - rewrite Hvec. apply pymin_le_r.
  - split; [exact Hmode|].
    split; [|split].
    + rewrite Hfinal.
      destruct Hmode as [<- | [<- | [<- | [<- | []]]]]; cbn;
        split; intros H; try discriminate H; reflexivity.
    + rewrite Hfinal.
      destruct Hmode as [<- | [<- | [<- | [<- | []]]]]; cbn;
        split; intros H; try discriminate H; reflexivity.
    + split; [eauto|]. rewrite Hstats, Hnav. split; discriminate.
Qed.

Lemma update_physics_returns
  (ps : ProprioceptionSystem) (current_pos : Q * Q) (now : Q) :
  update_physics ps current_pos 0.1 now
  = Returned {| position := current_pos;
                target_safe_distance := target_safe_distance ps;
                min_safe_distance := min_safe_distance ps;
                prop_velocity :=
                  ((fst current_pos - fst (position ps)) / 0.1,
                   (snd current_pos - snd (position ps)) / 0.1);
                last_update := now |}.
Proof.
  unfold update_physics.
  assert (H : Qltb 0 0.1 = true) by reflexivity. rewrite H.
  rewrite !truediv_returns by discriminate. reflexivity.
Qed.

Lemma perceive_position (c : SF_ORB_Controller) (stimulus : Stimulus) (amb : Ambient) :
  position (proprioception (snd (perceive c stimulus amb)))
  = default (position (proprioception c)) (stim_orb_coordinates stimulus)
  /\ min_safe_distance (proprioception (snd (perceive c stimulus amb)))
     = min_safe_distance (proprioception c)
  /\ target_safe_distance (proprioception (snd (perceive c stimulus amb)))
     = target_safe_distance (proprioception c).
Proof.
  unfold perceive.
  destruct (record_observation _ _ _ _) as [[ht vault] obs].
  destruct (process_stimulus _ _) as [bridge stats].
  cbn [proprioception set_gravity_bridge set_habit_tracker set_vaults].
  rewrite update_physics_returns. unfold try.
  destruct (calculate_navigation_vector _ _ _ _ _ _) as [nav|exn];
    [|repeat split].
  destruct (map_adjacency _ _) as [e node].
  destruct (check_necessity _ _ _ _) as [intuition|exn]; repeat split.
Qed.

(** X25. The orb's believed position only follows the stimulus: after an
    accepted stimulus it is the stimulus' [orb_coordinates], or the old
    position when the stimulus has none; a rejected stimulus leaves it.
    The two safe distances never change. *)
Theorem X25_orb_position_follows_stimulus
  (c : SF_ORB_Controller) (stimulus : Stimulus) (amb : Ambient) :
  position (proprioception (snd (cognitively_emerge c stimulus amb)))
  = (if _check_sovereignty stimulus
     then default (position (proprioception c)) (stim_orb_coordinates stimulus)
     else position (proprioception c))
  /\ min_safe_distance (proprioception (snd (cognitively_emerge c stimulus amb)))
     = min_safe_distance (proprioception c)
  /\ target_safe_distance (proprioception (snd (cognitively_emerge c stimulus amb)))
     = target_safe_distance (proprioception c).
Proof.
  unfold cognitively_emerge.
  destruct (_check_sovereignty stimulus); cbn [negb]; [|repeat split].
  pose proof (perceive_position c stimulus amb) as (Hpos & Hmin & Htarget).
  destruct (perceive c stimulus amb) as [[p|exn] c1]; cbn [snd] in *;
    [|repeat split; assumption].
  destruct (lightning_query (vaults c1) stimulus) as [cached|];
    [repeat split; assumption|].
  pose proof (synthesize_memory c1 stimulus amb p) as (_ & _ & Hps & _).
  destruct (synthesize c1 stimulus amb p) as [[t|exn] c2]; cbn [snd] in *;
    rewrite Hps; repeat split; assumption.
Qed.


End OrchestratorExtras.

(** *** Gravity bridge *)

Section GravityBridgeExtras.

Context {SF : SpaceFieldCognition}.

(** X27. An unwired bridge reports empty statistics and stays unwired.
    A wired bridge of dimension at least 1 steps its field once and, for
    a cursor movement, injects one signal whose voxel indices lie within
    the field and whose intensity is at most 1; for any other stimulus it
    only steps the field. *)
Theorem X27_gravity_injection_stays_in_bounds
  (w : GravityWiring) (stimulus : Stimulus) :
  (1 <= gw_dim w)%Z ->
  process_stimulus None stimulus = (None, [])
  /\ if bool_decide (stim_type stimulus = Some "cursor_movement")
     then exists x y z intensity,
            process_stimulus (Some w) stimulus
            = (Some {| gw_field :=
                         broadcast_to_field (field_step (gw_field w)) x y z intensity;
                       gw_dim := gw_dim w |},
               get_field_stats
                 (broadcast_to_field (field_step (gw_field w)) x y z intensity))
            /\ (0 <= x <= gw_dim w - 1)%Z
            /\ (0 <= y <= gw_dim w - 1)%Z
            /\ (0 <= z <= gw_dim w - 1)%Z
            /\ intensity <= 1
     else process_stimulus (Some w) stimulus
          = (Some {| gw_field := field_step (gw_field w); gw_dim := gw_dim w |},
             get_field_stats (field_step (gw_field w))).
Proof.
  intros Hdim. split; [reflexivity|].
  unfold process_stimulus.
  destruct (bool_decide (stim_type stimulus = Some "cursor_movement")).
  - eexists _, _, _, _. split; [reflexivity|].
    unfold clamp_index.
    repeat split; try lia; try apply pymin_le_r.
    + apply Z.div_pos; lia.
    + assert (gw_dim w / 2 < gw_dim w)%Z by (apply Z.div_lt_upper_bound; lia).
      lia.
  - reflexivity.
Qed.

End GravityBridgeExtras.

(** ** The further properties on the sample collaborators *)

Module ExtraWitness.

Import Sample.

(** X2 on the sample probe. *)
Lemma X2_probe_not_observed :
  stim_type probe <> Some "cursor_movement"
  /\ record_observation (VM := vault) tracker_after_three [] probe 4
     = (tracker_after_three, [], None).
Proof.
  assert (H : stim_type probe <> Some "cursor_movement") by discriminate.
  split; [exact H|].
  exact (X2_record_observation_ignores_other_stimuli (VM := vault)
           tracker_after_three [] probe 4 H).
Defined.

(** X3 on the fourth NW observation. *)
Lemma X3_fourth_observation :
  stim_type (cursor_at 100 200) = Some "cursor_movement"
  /\ (List.length (sequence_buffer tracker_after_three) <= 5)%nat
  /\ List.length
       (sequence_buffer
          (fst (fst (record_observation (VM := vault) tracker_after_three []
                       (cursor_at 100 200) 4))))
     = 4%nat.
Proof.
  assert (H1 : stim_type (cursor_at 100 200) = Some "cursor_movement")
    by reflexivity.
  assert (H2 : (List.length (sequence_buffer tracker_after_three) <= 5)%nat)
    by (cbn; lia).
  split; [exact H1|]. split; [exact H2|].
  destruct (X3_ring_buffer_keeps_last_five (VM := vault) tracker_after_three []
              (cursor_at 100 200) 4 H1 H2)
    as (obs & _ & _ & _ & _ & Hlen & _).
  exact Hlen.
Defined.

Lemma tracker_after_three_labelled :
  Forall (fun o => In (obs_quadrant o) ["NW"; "NE"; "SW"; "SE"])
         (sequence_buffer tracker_after_three).
Proof.
  repeat constructor.
Defined.

(** X6 on the buffer of three NW observations. *)
Lemma X6_three_nw :
  Forall (fun o => In (obs_quadrant o) ["NW"; "NE"; "SW"; "SE"])
         (sequence_buffer tracker_after_three)
  /\ _extrapolate_next_quadrant
       (_serialize_pattern (sequence_buffer tracker_after_three))
     = "NW".
Proof.
  split; [exact tracker_after_three_labelled|].
  exact (proj2 (X6_extrapolate_is_newest_label
                  (sequence_buffer tracker_after_three)
                  tracker_after_three_labelled)).
Defined.

(** X7 on the fourth NW observation. *)
Lemma X7_fourth_observation :
  stim_type (cursor_at 100 200) = Some "cursor_movement"
  /\ Forall (fun o => In (obs_quadrant o) ["NW"; "NE"; "SW"; "SE"])
            (sequence_buffer tracker_after_three)
  /\ (2 <= List.length (sequence_buffer tracker_after_three))%nat
  /\ Forall (fun o => In (obs_quadrant o) ["NW"; "NE"; "SW"; "SE"])
            (sequence_buffer
               (fst (fst (record_observation (VM := vault) tracker_after_three []
                            (cursor_at 100 200) 4)))).
Proof.
  assert (H1 : stim_type (cursor_at 100 200) = Some "cursor_movement")
    by reflexivity.
  assert (H3 : (2 <= List.length (sequence_buffer tracker_after_three))%nat)
    by (cbn; lia).
  split; [exact H1|]. split; [exact tracker_after_three_labelled|].
  split; [exact H3|].
  exact (proj1 (X7_predicted_next_is_present_quadrant (VM := vault)
                  tracker_after_three [] (cursor_at 100 200) 4
                  H1 tracker_after_three_labelled H3)).
Defined.


(** X18 on the envelope of the sample shadows. *)
Lemma X18_sample_core :
  exists core adv,
    _build_core_4_returns four_shadows []
      (_synthesize_logic_triad (BE := bayes_engine) (HE := hlsf)
         quiet_engine [] None no_jump []) = Returned core
    /\ _build_advisory_plus_one (PL := pylib) core = Returned adv
    /\ reweight_recommended (tension_indicators adv)
       = anomaly_detected
           (flags (_build_cali_reflection adv
                     (_synthesize_logic_triad (BE := bayes_engine) (HE := hlsf)
                        quiet_engine [] None no_jump [])))
         || drift_detected
              (flags (_build_cali_reflection adv
                        (_synthesize_logic_triad (BE := bayes_engine) (HE := hlsf)
                           quiet_engine [] None no_jump []))).
Proof.
  assert (H : exists core adv,
             _build_core_4_returns four_shadows []
               (_synthesize_logic_triad (BE := bayes_engine) (HE := hlsf)
                  quiet_engine [] None no_jump []) = Returned core
             /\ _build_advisory_plus_one (PL := pylib) core = Returned adv).
  { eexists. eexists. split; [vm_compute; reflexivity|].
    vm_compute. reflexivity. }
  destruct H as (core & adv & Hcore & Hadv).
  exists core, adv. split; [exact Hcore|]. split; [exact Hadv|].
  destruct (X18_reflection_flags_follow_tension (PL := pylib) core adv
              (_synthesize_logic_triad (BE := bayes_engine) (HE := hlsf)
                 quiet_engine [] None no_jump []) Hadv)
    as (_ & _ & _ & Hre & _).
  exact Hre.
Defined.

Local Abbreviation first_cycle :=
  (cognitively_emerge (VM := vault) (BE := bayes_engine) (HE := hlsf)
     (FT := tribunal_of_four) (SF := space_field) (PL := pylib)
     (controller quiet_engine) (cursor_at 100 200) ambient).

(** X23 on the first cycle of the sample controller. *)
Lemma X23_first_cycle :
  exists thought c',
    first_cycle = (Returned (Some (Emerged thought)), c')
    /\ exists crystal,
         vaults c' = [(KeyStimulus (cursor_at 100 200), CrystalValue crystal)]
         /\ cr_confidence crystal = confidence thought.
Proof.
  assert (Hrun : exists thought c',
             first_cycle = (Returned (Some (Emerged thought)), c')).
  { vm_compute. eexists. eexists. reflexivity. }
  destruct Hrun as (thought & c' & Hrun).
  exists thought, c'. split; [exact Hrun|].
  destruct (X23_full_cycle_crystallizes_the_thought
              (VM := vault) (BE := bayes_engine) (HE := hlsf)
              (FT := tribunal_of_four) (SF := space_field) (PL := pylib)
              (controller quiet_engine) c' (cursor_at 100 200) ambient thought Hrun)
    as (crystal & Hvault & _ & _ & _ & Hconf & _).
  exists crystal. split; [exact Hvault | exact Hconf].
Defined.

(** X24 on the first cycle of the sample controller. *)
Lemma X24_first_cycle :
  exists thought c',
    first_cycle = (Returned (Some (Emerged thought)), c')
    /\ 0.85 <= confidence thought
    /\ confidence thought <= 0.99.
Proof.
  assert (Hrun : exists thought c',
             first_cycle = (Returned (Some (Emerged thought)), c')).
  { vm_compute. eexists. eexists. reflexivity. }
  destruct Hrun as (thought & c' & Hrun).
  exists thought, c'. split; [exact Hrun|].
  destruct (X24_returned_thought_invariants
              (VM := vault) (BE := bayes_engine) (HE := hlsf)
              (FT := tribunal_of_four) (SF := space_field) (PL := pylib)
              (controller quiet_engine) c' (cursor_at 100 200) ambient thought Hrun)
    as (Hlow & Hhigh & _).
  split; [exact Hlow | exact Hhigh].
Defined.

(** X27 on the sample wiring of dimension 32. *)
Lemma X27_sample_wiring :
  (1 <= gw_dim (@Build_GravityWiring space_field 0%Z 32%Z))%Z
  /\ process_stimulus (SF := space_field) None (cursor_at 100 200) = (None, []).
Proof.
  assert (H : (1 <= gw_dim (@Build_GravityWiring space_field 0%Z 32%Z))%Z)
    by (cbn; lia).
  split; [exact H|].
  exact (proj1 (X27_gravity_injection_stays_in_bounds (SF := space_field)
                  (@Build_GravityWiring space_field 0%Z 32%Z)
                  (cursor_at 100 200) H)).
Defined.

End ExtraWitness.
